(** * StreamPoseML: the pose parser's data model (pose_parser/pose_parser.py)

    A shallow embedding of the classes [Joint], [BlazePoseFrame] and
    [BlazePoseSequence]: Python dictionaries are finite maps keyed by
    strings, a raised exception is the left summand of a result, and an
    object is a record of its attributes. *)

From Stdlib Require Import PrimFloat FloatOps SpecFloat Ascii String.
From stdpp Require Import gmap strings list fin_maps.

Local Open Scope string_scope.
Local Open Scope list_scope.

(** ** Python values

    The raw records are what [json.load] or [MediaPipeClient] hand over:
    [None], integers, floats, strings and dictionaries keyed by strings.
    A float is an IEEE-754 binary64 number, as in CPython. *)

#[warnings="-register-all"]
Inductive pyval : Type :=
| PyNone
| PyInt (z : Z)
| PyFloat (f : float)
| PyStr (s : string)
| PyDict (d : gmap string pyval).

(** ** Exceptions *)

Inductive exn : Type :=
| JointError (msg : string)
| BlazePoseFrameError (msg : string)
| BlazePoseSequenceError (msg : string)
| KeyError (key : string)
| TypeError (msg : string)
| AttributeError (attr : string).

(** A call either raises or returns. *)
Definition result (A : Type) : Type := exn + A.

#[global] Instance result_ret : MRet result := λ A a, inr a.
#[global] Instance result_bind : MBind result := λ A B k m,
  match m with
  | inl e => inl e
  | inr a => k a
  end.

(** [raise e] is Python's [raise]. *)
Definition raise {A} (e : exn) : result A := inl e.

(** ** The operations of Python the parser uses on raw values *)

(** [bool(v)]: [None], zero, the empty string and the empty dictionary are
    false, everything else is true. *)
Definition truthy (v : pyval) : bool :=
  match v with
  | PyNone => false
  | PyInt z => negb (z =? 0)%Z
  | PyFloat f => negb (PrimFloat.eqb f 0%float)
  | PyStr s => negb (String.eqb s "")
  | PyDict d => negb (bool_decide (dom d = ∅))
  end.

(** [needle in hay] on two strings. *)
Fixpoint is_substring (needle hay : string) : bool :=
  String.prefix needle hay ||
  match hay with
  | EmptyString => false
  | String _ hay' => is_substring needle hay'
  end.

(** [key in d] and [d[key]] on a dictionary. *)
Definition dict_contains (key : string) (d : gmap string pyval) : bool :=
  match d !! key with
  | Some _ => true
  | None => false
  end.

Definition dict_getitem (d : gmap string pyval) (key : string) : result pyval :=
  match d !! key with
  | Some v => mret v
  | None => raise (KeyError key)
  end.

(** [key in v] and [v[key]] on any value, [key] a string. *)
Definition py_contains (key : string) (v : pyval) : result bool :=
  match v with
  | PyDict d => mret (dict_contains key d)
  | PyStr s => mret (is_substring key s)
  | PyNone | PyInt _ | PyFloat _ => raise (TypeError "argument is not iterable")
  end.

Definition py_getitem (v : pyval) (key : string) : result pyval :=
  match v with
  | PyDict d => dict_getitem d key
  | PyStr _ => raise (TypeError "string indices must be integers")
  | PyNone | PyInt _ | PyFloat _ => raise (TypeError "object is not subscriptable")
  end.

(** The keys a [for key in d] loop visits. *)
Definition dict_keys (d : gmap string pyval) : list string :=
  (map_to_list d).*1.

(** ** class Joint *)

Module Joint.
Record t : Type := mk {
  name : string;
  x : pyval;
  y : pyval;
  z : pyval;
  x_normalized : pyval;
  y_normalized : pyval;
  z_normalized : pyval;
  image_dimensions : pyval
}.

Definition required_keys : list string :=
  ["x"; "y"; "z"; "x_normalized"; "y_normalized"; "z_normalized";
   "image_dimensions"].
End Joint.

(** [Joint.__init__(name, joint_data)]. *)
Definition Joint_init (name : string) (joint_data : gmap string pyval)
  : result Joint.t :=
  if negb (forallb (λ key, bool_decide (key ∈ Joint.required_keys))
                   (dict_keys joint_data))
  then raise (JointError
         "The required data is missing from the joint data dictionary.")
  else
    image_dimensions ← dict_getitem joint_data "image_dimensions";
    x ← dict_getitem joint_data "x";
    y ← dict_getitem joint_data "y";
    z ← dict_getitem joint_data "z";
    x_normalized ← dict_getitem joint_data "x_normalized";
    y_normalized ← dict_getitem joint_data "y_normalized";
    z_normalized ← dict_getitem joint_data "z_normalized";
    mret (Joint.mk name x y z x_normalized y_normalized z_normalized
            image_dimensions).

(** ** class Angle

    Only the shape of the object: its six measurements are floating-point
    results of numpy's [linalg.norm], [dot], [clip], [arccos] and
    [degrees], and no frame ever builds one. *)

Module Angle.
Record t : Type := mk {
  name : string;
  vector_1 : list float;
  vector_2 : list float;
  angle_2d : float;
  angle_3d : float;
  angle_2d_radians : float;
  angle_3d_radians : float;
  angle_2d_degrees : float;
  angle_3d_degrees : float
}.
End Angle.

(** ** class BlazePoseFrame *)

(** A point is a 3-tuple, a vector the two-element list of its end points. *)
Definition point : Type := pyval * pyval * pyval.

Module BlazePoseFrame.
(** The attributes of a frame. [angles = None] is Python's [None];
    [joint_positions_raw] and [plumb_line_vector] are [None] as long as the
    attribute has not been assigned. *)
Record t : Type := mk {
  joint_position_names : list string;
  joints : gmap string Joint.t;
  angles : option (gmap string Angle.t);
  frame_number : pyval;
  has_joint_positions : bool;
  image_dimensions : pyval;
  sequence_id : pyval;
  sequence_source : pyval;
  joint_positions_raw : option pyval;
  plumb_line_vector : option (list point * list point)
}.

Definition set_joint_positions_raw (v : pyval) (self : t) : t :=
  mk (joint_position_names self) (joints self) (angles self)
     (frame_number self) (has_joint_positions self) (image_dimensions self)
     (sequence_id self) (sequence_source self) (Some v)
     (plumb_line_vector self).

Definition set_joints (js : gmap string Joint.t) (self : t) : t :=
  mk (joint_position_names self) js (angles self)
     (frame_number self) (has_joint_positions self) (image_dimensions self)
     (sequence_id self) (sequence_source self) (joint_positions_raw self)
     (plumb_line_vector self).

Definition set_angles (a : option (gmap string Angle.t)) (self : t) : t :=
  mk (joint_position_names self) (joints self) a
     (frame_number self) (has_joint_positions self) (image_dimensions self)
     (sequence_id self) (sequence_source self) (joint_positions_raw self)
     (plumb_line_vector self).

Definition set_plumb_line_vector (v : list point * list point) (self : t) : t :=
  mk (joint_position_names self) (joints self) (angles self)
     (frame_number self) (has_joint_positions self) (image_dimensions self)
     (sequence_id self) (sequence_source self) (joint_positions_raw self)
     (Some v).
End BlazePoseFrame.

(** The vocabulary as [BlazePoseFrame.__init__] spells it (lines 157-191). *)
Definition frame_joint_position_names : list string :=
  ["nose"; "left_eye_inner"; "left_eye"; "left_eye_outer"; "right_eye_inner";
   "right_eye"; "right_eye_outer"; "left_ear"; "right_ear"; "mouth_left";
   "mouth_right"; "left_shoulder"; "right_shoulder"; "left_elbow";
   "right_elbow"; "left_wrist"; "right_wrist"; "left_pinky"; "right_pinky";
   "left_index"; "right_index"; "left_thumb"; "right_thumb"; "left_hip";
   "right_hip"; "left_knee"; "right_knee"; "left_ankle"; "right_anle";
   "left_heel"; "right_heel"; "left_foot_index"; "right_foot_index"].

Definition required_joint_keys : list string :=
  ["x"; "y"; "z"; "x_normalized"; "y_normalized"; "z_normalized"].

(** The inner loop of [validate_joint_position_data]: every coordinate key
    must be in the joint's record. *)
Fixpoint validate_joint_keys (joint : string) (joint_positions : pyval)
    (keys : list string) : result unit :=
  match keys with
  | [] => mret tt
  | key :: keys' =>
      record ← py_getitem joint_positions joint;
      present ← py_contains key record;
      if (present : bool) then validate_joint_keys joint joint_positions keys'
      else raise (BlazePoseFrameError
                    (key +:+ " missing from " +:+ joint +:+ " position data"))
  end.

(** The outer loop, over the vocabulary. *)
Fixpoint validate_joint_names (names : list string) (joint_positions : pyval)
    : result unit :=
  match names with
  | [] => mret tt
  | joint :: names' =>
      present ← py_contains joint joint_positions;
      if (present : bool) then
        _ ← validate_joint_keys joint joint_positions required_joint_keys;
        validate_joint_names names' joint_positions
      else raise (BlazePoseFrameError
                    (joint +:+ " missing from joint positions dict"))
  end.

Definition validate_joint_position_data (self : BlazePoseFrame.t)
    (joint_positions : pyval) : result bool :=
  _ ← validate_joint_names (BlazePoseFrame.joint_position_names self)
        joint_positions;
  mret true.

(** [joints_raw[joint][key]]. *)
Definition raw_coordinate (joints_raw : pyval) (joint key : string)
    : result pyval :=
  record ← py_getitem joints_raw joint;
  py_getitem record key.

(** The loop of [set_joint_positions]; [joint_positions] is the dictionary
    built so far. *)
Fixpoint set_joint_positions_loop (self : BlazePoseFrame.t)
    (names : list string) (joint_positions : gmap string Joint.t)
    : result (gmap string Joint.t) :=
  match names with
  | [] => mret joint_positions
  | joint :: names' =>
      joints_raw ← match BlazePoseFrame.joint_positions_raw self with
                   | Some v => mret v
                   | None => raise (AttributeError "joint_positions_raw")
                   end;
      x ← raw_coordinate joints_raw joint "x";
      y ← raw_coordinate joints_raw joint "y";
      z ← raw_coordinate joints_raw joint "z";
      x_normalized ← raw_coordinate joints_raw joint "x_normalized";
      y_normalized ← raw_coordinate joints_raw joint "y_normalized";
      z_normalized ← raw_coordinate joints_raw joint "z_normalized";
      let joint_data : gmap string pyval :=
        list_to_map
          [("image_dimensions", BlazePoseFrame.image_dimensions self);
           ("x", x); ("y", y); ("z", z);
           ("x_normalized", x_normalized);
           ("y_normalized", y_normalized);
           ("z_normalized", z_normalized)] in
      j ← Joint_init joint joint_data;
      set_joint_positions_loop self names' (<[joint := j]> joint_positions)
  end.

Definition set_joint_positions (self : BlazePoseFrame.t)
    : result (gmap string Joint.t) :=
  if negb (BlazePoseFrame.has_joint_positions self)
  then raise (BlazePoseFrameError "There are no joint positions to set")
  else set_joint_positions_loop self
         (BlazePoseFrame.joint_position_names self) ∅.

(** [self.joints[name]]. *)
Definition joint_of (self : BlazePoseFrame.t) (name : string)
    : result Joint.t :=
  match BlazePoseFrame.joints self !! name with
  | Some j => mret j
  | None => raise (KeyError name)
  end.

(** [self.joints[name].attr]. *)
Definition joint_attr (self : BlazePoseFrame.t) (name : string)
    (attr : Joint.t → pyval) : result pyval :=
  j ← joint_of self name;
  mret (attr j).

(** [get_vector(joint_name1, joint_name2)], lines 290-309. *)
Definition get_vector (self : BlazePoseFrame.t)
    (joint_name1 joint_name2 : string) : result (list point * list point) :=
  x1 ← joint_attr self joint_name1 Joint.x;
  y1 ← joint_attr self joint_name1 Joint.y;
  z1 ← joint_attr self joint_name1 Joint.z;
  x2 ← joint_attr self joint_name1 Joint.x;
  y2 ← joint_attr self joint_name1 Joint.y;
  z2 ← joint_attr self joint_name1 Joint.z;
  let vector := [(x1, y1, z1); (x2, y2, z2)] in
  x1_normalized ← joint_attr self joint_name2 Joint.x;
  y1_normalized ← joint_attr self joint_name2 Joint.y;
  z1_normalized ← joint_attr self joint_name2 Joint.z;
  x2_normalized ← joint_attr self joint_name2 Joint.x;
  y2_normalized ← joint_attr self joint_name2 Joint.y;
  z2_normalized ← joint_attr self joint_name2 Joint.z;
  let vector_normalized :=
    [(x1_normalized, y1_normalized, z1_normalized);
     (x2_normalized, y2_normalized, z2_normalized)] in
  mret (vector, vector_normalized).

(** ** [get_plumbline_vector], lines 311-330

    The statements of lines 321-323 close a parenthesis that was never
    opened, so the method has no reading as Python: what is embedded is
    its text, statement by statement, and the bracket matching of
    Python's tokenizer over it. *)

Module PlumblineSource.
Definition body : list string :=
  ["x1 = (self.joints['left_shoulder'].x + self.joints['right_shoulder'].x)/2";
   "y1 = (self.joints['left_shoulder'].y + self.joints['right_shoulder'].y)/2";
   "z1 = (self.joints['left_shoulder'].z + self.joints['right_shoulder'].z)/2";
   "x2 = (self.joints['left_hip'].x + self.joints['right_hip'].x)/2";
   "y2 = (self.joints['left_hip'].y + self.joints['right_hip'].y)/2";
   "z2 = (self.joints['left_hip'].z + self.joints['right_hip'].z)/2";
   "plumbline = [(x1, y1, z1), (x2, y2, z2)]";
   "x1_normalized =self.joints['left_shoulder'].x_normalized + self.joints['right_shoulder'].x_normalized)/2";
   "y1_normalized =self.joints['left_shoulder'].y_normalized + self.joints['right_shoulder'].y_normalized)/2";
   "z1_normalized =self.joints['left_shoulder'].z_normalized + self.joints['right_shoulder'].z_normalized)/2";
   "x2_normalized = (self.joints['left_hip'].x_normalized + self.joints['right_hip'].x_normalized)/2";
   "y2_normalized = (self.joints['left_hip'].y_normalized + self.joints['right_hip'].y_normalized)/2";
   "z2_normalized = (self.joints['left_hip'].z_normalized + self.joints['right_hip'].z_normalized)/2";
   "plumbline_normalized = [(x1_normalized, y1_normalized, z1_normalized), (x2_normalized, y2_normalized, z2_normalized)]";
   "return plumbline, plumbline_normalized"].

(** The stack of brackets still open after [s], or [None] at a closing
    bracket that matches no open one. Brackets inside a quoted string do
    not count. *)
Fixpoint open_brackets (stack : list ascii) (quoted : bool) (s : string)
    : option (list ascii) :=
  match s with
  | EmptyString => Some stack
  | String c s' =>
      if Ascii.eqb c "'" then open_brackets stack (negb quoted) s'
      else if quoted then open_brackets stack quoted s'
      else if Ascii.eqb c "(" || Ascii.eqb c "[" then
        open_brackets (c :: stack) quoted s'
      else if Ascii.eqb c ")" then
        match stack with
        | "("%char :: stack' => open_brackets stack' quoted s'
        | _ => None
        end
      else if Ascii.eqb c "]" then
        match stack with
        | "["%char :: stack' => open_brackets stack' quoted s'
        | _ => None
        end
      else open_brackets stack quoted s'
  end.

(** A statement on one line is well bracketed when every bracket closes
    the last one opened and none stays open. *)
Definition well_bracketed (statement : string) : bool :=
  match open_brackets [] false statement with
  | Some [] => true
  | _ => false
  end.
End PlumblineSource.

Section Frames.

(** What a call of [get_plumbline_vector] does is left open: a result or an
    exception, for each frame. *)
Variable get_plumbline_vector :
  BlazePoseFrame.t → result (list point * list point).

(** [generate_angle_measurements], lines 280-287: the frame after the call
    and the value returned. The body has no [return], the value is [None]. *)
Definition generate_angle_measurements (self : BlazePoseFrame.t)
    : result (BlazePoseFrame.t * option (gmap string Angle.t)) :=
  if negb (BlazePoseFrame.has_joint_positions self)
  then raise (BlazePoseFrameError
                "There are no joint data to generate angles from")
  else
    plumb_line_vector ← get_plumbline_vector self;
    mret (BlazePoseFrame.set_plumb_line_vector plumb_line_vector self, None).

(** [BlazePoseFrame.__init__(frame_data)], lines 157-205. *)
Definition BlazePoseFrame_init (frame_data : gmap string pyval)
    : result BlazePoseFrame.t :=
  frame_number ← dict_getitem frame_data "frame_number";
  joint_positions ← dict_getitem frame_data "joint_positions";
  let has_joint_positions := truthy joint_positions in
  image_dimensions ← dict_getitem frame_data "image_dimensions";
  sequence_id ← dict_getitem frame_data "sequence_id";
  sequence_source ← dict_getitem frame_data "sequence_source";
  let self :=
    BlazePoseFrame.mk frame_joint_position_names ∅ (Some ∅) frame_number
      has_joint_positions image_dimensions sequence_id sequence_source
      None None in
  if has_joint_positions then
    joint_positions ← dict_getitem frame_data "joint_positions";
    _ ← validate_joint_position_data self joint_positions;
    joint_positions ← dict_getitem frame_data "joint_positions";
    let self := BlazePoseFrame.set_joint_positions_raw joint_positions self in
    joints ← set_joint_positions self;
    let self := BlazePoseFrame.set_joints joints self in
    '(self, returned) ← generate_angle_measurements self;
    mret (BlazePoseFrame.set_angles returned self)
  else mret self.

End Frames.

(** ** class BlazePoseSequence *)

Module BlazePoseSequence.
Record t : Type := mk {
  joint_positions : list string;
  sequence_data : list (gmap string pyval);
  frames : list BlazePoseFrame.t
}.
End BlazePoseSequence.

(** The vocabulary as [BlazePoseSequence.__init__] spells it (lines 357-391). *)
Definition sequence_joint_positions : list string :=
  ["nose"; "left_eye_inner"; "left_eye"; "left_eye_outer"; "right_eye_inner";
   "right_eye"; "right_eye_outer"; "left_ear"; "right_ear"; "mouth_left";
   "mouth_right"; "left_shoulder"; "right_shoulder"; "left_elbow";
   "right_elbow"; "left_wrist"; "right_wrist"; "left_pinky"; "right_pinky";
   "left_index"; "right_index"; "left_thumb"; "right_thumb"; "left_hip";
   "right_hip"; "left_knee"; "right_knee"; "left_ankle"; "right_anle";
   "left_heel"; "right_heel"; "left_foot_index"; "right_foot_index"].

Definition required_keys : list string :=
  ["sequence_id"; "sequence_source"; "frame_number"; "image_dimensions";
   "joint_positions"].

(** The first loop of [validate_pose_schema]: the top-level keys. *)
Fixpoint validate_required_keys (keys : list string)
    (frame_data : gmap string pyval) : result unit :=
  match keys with
  | [] => mret tt
  | key :: keys' =>
      if negb (dict_contains key frame_data)
      then raise (BlazePoseSequenceError
                    ("Validation error - " +:+ key +:+
                     " is missing from frame data"))
      else validate_required_keys keys' frame_data
  end.

(** The second loop: the joint names. *)
Fixpoint validate_positions (names : list string) (joint_positions : pyval)
    : result unit :=
  match names with
  | [] => mret tt
  | pos :: names' =>
      present ← py_contains pos joint_positions;
      if negb present
      then raise (BlazePoseSequenceError
                    ("Validation error - " +:+ pos +:+
                     " is missing from joint position data"))
      else validate_positions names' joint_positions
  end.

(** [validate_pose_schema(frame_data)], lines 399-446; [self_joint_positions]
    is [self.joint_positions], the one attribute the object has when its
    constructor calls the method. *)
Definition validate_pose_schema (self_joint_positions : list string)
    (frame_data : gmap string pyval) : result bool :=
  _ ← validate_required_keys required_keys frame_data;
  joint_positions ← dict_getitem frame_data "joint_positions";
  if negb (truthy joint_positions) then mret true
  else
    _ ← validate_positions self_joint_positions joint_positions;
    mret true.

(** The loop of [BlazePoseSequence.__init__] over the entries. *)
Fixpoint validate_sequence (self_joint_positions : list string)
    (sequence : list (gmap string pyval)) : result unit :=
  match sequence with
  | [] => mret tt
  | frame :: sequence' =>
      valid ← validate_pose_schema self_joint_positions frame;
      if negb valid
      then raise (BlazePoseSequenceError "Validation error!")
      else validate_sequence self_joint_positions sequence'
  end.

(** [BlazePoseSequence.__init__(sequence)], lines 356-397. *)
Definition BlazePoseSequence_init (sequence : list (gmap string pyval))
    : result BlazePoseSequence.t :=
  _ ← validate_sequence sequence_joint_positions sequence;
  mret (BlazePoseSequence.mk sequence_joint_positions sequence []).

Section Generation.

Variable get_plumbline_vector :
  BlazePoseFrame.t → result (list point * list point).

(** The loop of [generate_blaze_pose_frames_from_sequence]: [frames] is
    [self.frames] so far; an exception leaves what was appended in place. *)
Fixpoint generate_loop (frames : list BlazePoseFrame.t)
    (sequence_data : list (gmap string pyval))
    : list BlazePoseFrame.t * result unit :=
  match sequence_data with
  | [] => (frames, mret tt)
  | frame_data :: sequence_data' =>
      match BlazePoseFrame_init get_plumbline_vector frame_data with
      | inl e => (frames, raise e)
      | inr bpf => generate_loop (frames ++ [bpf]) sequence_data'
      end
  end.

(** [generate_blaze_pose_frames_from_sequence()], lines 448-451: the
    sequence after the call and the outcome of the call. *)
Definition generate_blaze_pose_frames_from_sequence
    (self : BlazePoseSequence.t) : BlazePoseSequence.t * result unit :=
  let '(frames, outcome) :=
    generate_loop (BlazePoseSequence.frames self)
      (BlazePoseSequence.sequence_data self) in
  (BlazePoseSequence.mk (BlazePoseSequence.joint_positions self)
     (BlazePoseSequence.sequence_data self) frames,
   outcome).

End Generation.

(** ** Completeness of a raw entry

    What [validate_joint_position_data] and [set_joint_positions] need of
    the landmarks: every vocabulary joint maps to a dictionary holding the
    six coordinate keys. *)

Definition record_complete (record : pyval) : bool :=
  match record with
  | PyDict r => forallb (λ key, dict_contains key r) required_joint_keys
  | _ => false
  end.

Definition joints_complete (joint_positions : pyval) : bool :=
  match joint_positions with
  | PyDict d =>
      forallb (λ joint, match d !! joint with
                        | Some record => record_complete record
                        | None => false
                        end)
              frame_joint_position_names
  | _ => false
  end.

(** An entry is complete when its landmarks are absent (a false value) or
    complete. *)
Definition entry_complete (frame_data : gmap string pyval) : bool :=
  match frame_data !! "joint_positions" with
  | Some joint_positions =>
      negb (truthy joint_positions) || joints_complete joint_positions
  | None => false
  end.

(** ** Sample records *)

Definition sample_coordinates : gmap string pyval :=
  list_to_map
    [("x", PyFloat 0.5); ("y", PyFloat 0.25); ("z", PyFloat 0.125);
     ("x_normalized", PyFloat 960); ("y_normalized", PyFloat 270);
     ("z_normalized", PyFloat 240)].

Definition sample_image_dimensions : pyval :=
  PyDict (list_to_map [("height", PyInt 1080); ("width", PyInt 1920)]).

(** Every vocabulary joint with the same record. *)
Definition sample_joint_positions (record : pyval) : gmap string pyval :=
  list_to_map ((λ joint, (joint, record)) <$> frame_joint_position_names).

Definition sample_frame_data (frame_number : Z) (joint_positions : pyval)
    : gmap string pyval :=
  list_to_map
    [("sequence_id", PyInt 1677107027968938000);
     ("sequence_source", PyStr "mediapipe");
     ("frame_number", PyInt frame_number);
     ("image_dimensions", sample_image_dimensions);
     ("joint_positions", joint_positions)].

(** A frame with all 33 landmarks, and one without a detection. *)
Definition sample_detected : gmap string pyval :=
  sample_frame_data 1 (PyDict (sample_joint_positions (PyDict sample_coordinates))).

Definition sample_undetected : gmap string pyval :=
  sample_frame_data 2 (PyDict ∅).

(** All 33 joints are named, but the record of [left_knee] has no
    [z_normalized]. *)
Definition sample_knee_joint_positions : gmap string pyval :=
  <["left_knee" := PyDict (delete "z_normalized" sample_coordinates)]>
    (sample_joint_positions (PyDict sample_coordinates)).

Definition sample_knee : gmap string pyval :=
  sample_frame_data 3 (PyDict sample_knee_joint_positions).

(** The second entry has no [frame_number]. *)
Definition sample_sequence_invalid : list (gmap string pyval) :=
  [sample_detected; delete "frame_number" sample_undetected; sample_knee].

(** Two sequences that pass [validate_pose_schema] entry by entry. *)
Definition sample_sequence_complete : list (gmap string pyval) :=
  [sample_detected; sample_undetected].

Definition sample_sequence_knee : list (gmap string pyval) :=
  [sample_undetected; sample_knee].

(** The frame [BlazePoseFrame.__init__] has built when it reaches the test
    of [has_joint_positions] (line 201). *)
Definition frame_before_joints
    (frame_number joint_positions image_dimensions sequence_id
     sequence_source : pyval) : BlazePoseFrame.t :=
  BlazePoseFrame.mk frame_joint_position_names ∅ (Some ∅) frame_number
    (truthy joint_positions) image_dimensions sequence_id sequence_source
    None None.

(** The message of [validate_joint_position_data] for a missing key. *)
Definition missing_key_message (key joint : string) : string :=
  key +:+ " missing from " +:+ joint +:+ " position data".

(** A frame with two landmarks of different coordinates. *)
Definition sample_shoulder : Joint.t :=
  Joint.mk "left_shoulder" (PyFloat 0.5) (PyFloat 0.25) (PyFloat 0.125)
    (PyFloat 960) (PyFloat 270) (PyFloat 240) sample_image_dimensions.

Definition sample_elbow : Joint.t :=
  Joint.mk "left_elbow" (PyFloat 0.625) (PyFloat 0.5) (PyFloat 0.25)
    (PyFloat 1200) (PyFloat 540) (PyFloat 480) sample_image_dimensions.

Definition sample_frame : BlazePoseFrame.t :=
  BlazePoseFrame.mk frame_joint_position_names
    (list_to_map [("left_shoulder", sample_shoulder);
                  ("left_elbow", sample_elbow)])
    None (PyInt 1) true sample_image_dimensions (PyInt 1677107027968938000)
    (PyStr "mediapipe") None None.

(** The raw coordinates of a landmark. *)
Definition raw_point (j : Joint.t) : point :=
  (Joint.x j, Joint.y j, Joint.z j).

(** A get_plumbline_vector that returns, whatever the frame. *)
Definition plumbline_returning (v : list point * list point)
    : BlazePoseFrame.t → result (list point * list point) :=
  λ _, mret v.

(** An entry whose [joint_positions] is [None], as a JSON [null] loads. *)
Definition sample_null : gmap string pyval :=
  sample_frame_data 4 PyNone.

(** Landmarks that name every joint but [left_hip]. *)
Definition sample_no_hip_joint_positions : gmap string pyval :=
  delete "left_hip" (sample_joint_positions (PyDict sample_coordinates)).

Definition sample_no_hip : gmap string pyval :=
  sample_frame_data 5 (PyDict sample_no_hip_joint_positions).

(** The body of the loop of [set_joint_positions] for one name (lines
    223-233): the six coordinates are read from the raw record and handed
    to [Joint] with the frame's image dimensions. *)
Definition landmark_of (joints_raw image_dimensions : pyval) (joint : string)
    : result Joint.t :=
  x ← raw_coordinate joints_raw joint "x";
  y ← raw_coordinate joints_raw joint "y";
  z ← raw_coordinate joints_raw joint "z";
  x_normalized ← raw_coordinate joints_raw joint "x_normalized";
  y_normalized ← raw_coordinate joints_raw joint "y_normalized";
  z_normalized ← raw_coordinate joints_raw joint "z_normalized";
  mret (Joint.mk joint x y z x_normalized y_normalized z_normalized
          image_dimensions).

(** ** class MediaPipeClient

    The video decoder ([cv2]) and the pose model ([mediapipe]) are outside
    the repository. What they hand over is data here: an image is its
    [shape], a tuple of integers, and the result of the pose model on an
    image is its list of landmarks, or nothing when no body was found. *)

Inductive client_exn : Type :=
| MediaPipeClientError (msg : string)
| IndexError (msg : string)
| ValueError (msg : string)
| OverflowError (msg : string)
| Raised (e : exn).

Definition client_result (A : Type) : Type := client_exn + A.

#[global] Instance client_result_ret : MRet client_result := λ A a, inr a.
#[global] Instance client_result_bind : MBind client_result := λ A B k m,
  match m with
  | inl e => inl e
  | inr a => k a
  end.

(** A landmark of the pose model: the three fields the client reads. *)
Module Landmark.
Record t : Type := mk {
  x : float;
  y : float;
  z : float
}.
End Landmark.

(** [float(n)] for an integer: the nearest binary64 number, ties to even,
    and [OverflowError] when that is out of range. *)
Definition float_of_int (n : Z) : client_result float :=
  match binary_normalize prec emax n 0 false with
  | S754_infinity _ => inl (OverflowError "int too large to convert to float")
  | sf => mret (SF2Prim sf)
  end.

(** [f * n], a float by an integer: the integer is converted first. *)
Definition float_mul_int (f : float) (n : Z) : client_result float :=
  m ← float_of_int n;
  mret (PrimFloat.mul f m).

(** [pose_landmarks[i].attr]. *)
Definition landmark_attr (pose_landmarks : list Landmark.t) (i : nat)
    (attr : Landmark.t → float) : client_result float :=
  match pose_landmarks !! i with
  | Some landmark => mret (attr landmark)
  | None => inl (IndexError "list index out of range")
  end.

(** [h, w, _ = shape]. *)
Definition unpack_shape (shape : list Z) : client_result (Z * Z) :=
  match shape with
  | [h; w; _] => mret (h, w)
  | [] | [_] | [_; _] =>
      inl (ValueError "not enough values to unpack (expected 3)")
  | _ => inl (ValueError "too many values to unpack (expected 3)")
  end.

Module MediaPipeClient.
(** The attributes of a client that the processing of a video reads or
    writes. [image_dimensions] is [None] until an image was read. *)
Record t : Type := mk {
  frame_count : Z;
  frame_data_list : list (gmap string pyval);
  id : Z;
  joints : list string;
  results_raw : list (option (list Landmark.t));
  image_dimensions : option (list Z)
}.
End MediaPipeClient.

(** The vocabulary as [MediaPipeClient.__init__] spells it (lines 500-534). *)
Definition client_joints : list string :=
  ["nose"; "left_eye_inner"; "left_eye"; "left_eye_outer"; "right_eye_inner";
   "right_eye"; "right_eye_outer"; "left_ear"; "right_ear"; "mouth_left";
   "mouth_right"; "left_shoulder"; "right_shoulder"; "left_elbow";
   "right_elbow"; "left_wrist"; "right_wrist"; "left_pinky"; "right_pinky";
   "left_index"; "right_index"; "left_thumb"; "right_thumb"; "left_hip";
   "right_hip"; "left_knee"; "right_knee"; "left_ankle"; "right_anle";
   "left_heel"; "right_heel"; "left_foot_index"; "right_foot_index"].

(** The attributes as [MediaPipeClient.__init__] leaves them (lines
    499-540), for a client of identifier [id]. *)
Definition client_after_init (id : Z) : MediaPipeClient.t :=
  MediaPipeClient.mk 0 [] id client_joints [] None.

(** The loop of [serialize_pose_landmarks] (lines 647-659); [i] is the
    index [enumerate] has reached, [landmarks] the dictionary so far. *)
Fixpoint serialize_loop (pose_landmarks : list Landmark.t) (h w : Z)
    (i : nat) (joints : list string) (landmarks : gmap string pyval)
    : client_result (gmap string pyval) :=
  match joints with
  | [] => mret landmarks
  | joint :: joints' =>
      x ← landmark_attr pose_landmarks i Landmark.x;
      y ← landmark_attr pose_landmarks i Landmark.y;
      z ← landmark_attr pose_landmarks i Landmark.z;
      x' ← landmark_attr pose_landmarks i Landmark.x;
      x_normalized ← float_mul_int x' w;
      y' ← landmark_attr pose_landmarks i Landmark.y;
      y_normalized ← float_mul_int y' h;
      z' ← landmark_attr pose_landmarks i Landmark.z;
      z_normalized ← float_mul_int z' w;
      let record : gmap string pyval :=
        list_to_map
          [("x", PyFloat x); ("y", PyFloat y); ("z", PyFloat z);
           ("x_normalized", PyFloat x_normalized);
           ("y_normalized", PyFloat y_normalized);
           ("z_normalized", PyFloat z_normalized)] in
      serialize_loop pose_landmarks h w (S i) joints'
        (<[joint := PyDict record]> landmarks)
  end.

(** [serialize_pose_landmarks(pose_landmarks)], lines 644-660. *)
Definition serialize_pose_landmarks (self : MediaPipeClient.t)
    (pose_landmarks : list Landmark.t) : client_result (gmap string pyval) :=
  match pose_landmarks with
  | [] => mret ∅
  | _ :: _ =>
      shape ← match MediaPipeClient.image_dimensions self with
              | Some shape => mret shape
              | None => inl (Raised (AttributeError "image_dimensions"))
              end;
      '(h, w) ← unpack_shape shape;
      serialize_loop pose_landmarks h w 0 (MediaPipeClient.joints self) ∅
  end.

(** One decoded frame of a video: the shape of the image, and what the
    pose model found in it. *)
Definition video_frame : Type := list Z * option (list Landmark.t).

(** The record [process_video] starts a frame with (lines 587-593). *)
Definition new_frame_data (id frame_count h w : Z) : gmap string pyval :=
  list_to_map
    [("sequence_id", PyInt id);
     ("sequence_source", PyStr "mediapipe");
     ("frame_number", PyInt frame_count);
     ("image_dimensions",
      PyDict (list_to_map [("height", PyInt h); ("width", PyInt w)]));
     ("joint_positions", PyDict ∅)].

(** The [while] loop of [process_video] (lines 576-608) on the frames the
    capture still holds: the client after the loop, and how it ended. An
    exception leaves the client as it was when it was raised. *)
Fixpoint process_frames (self : MediaPipeClient.t) (limit : option Z)
    (frames : list video_frame) : MediaPipeClient.t * client_result unit :=
  match limit with
  | None =>
      (self,
       inl (Raised (TypeError
         "'>=' not supported between instances of 'int' and 'NoneType'")))
  | Some n =>
      if (n <=? MediaPipeClient.frame_count self)%Z then (self, mret tt)
      else
        match frames with
        | [] => (self, mret tt)
        | (shape, detection) :: frames' =>
            let frame_count := (MediaPipeClient.frame_count self + 1)%Z in
            let self :=
              MediaPipeClient.mk frame_count
                (MediaPipeClient.frame_data_list self)
                (MediaPipeClient.id self) (MediaPipeClient.joints self)
                (MediaPipeClient.results_raw self) (Some shape) in
            match unpack_shape shape with
            | inl e => (self, inl e)
            | inr (h, w) =>
                let frame_data :=
                  new_frame_data (MediaPipeClient.id self) frame_count h w in
                let self :=
                  MediaPipeClient.mk frame_count
                    (MediaPipeClient.frame_data_list self)
                    (MediaPipeClient.id self) (MediaPipeClient.joints self)
                    (MediaPipeClient.results_raw self ++ [detection])
                    (Some shape) in
                match detection with
                | None =>
                    process_frames
                      (MediaPipeClient.mk frame_count
                         (MediaPipeClient.frame_data_list self ++ [frame_data])
                         (MediaPipeClient.id self)
                         (MediaPipeClient.joints self)
                         (MediaPipeClient.results_raw self) (Some shape))
                      limit frames'
                | Some pose_landmarks =>
                    match serialize_pose_landmarks self pose_landmarks with
                    | inl e => (self, inl e)
                    | inr landmarks =>
                        process_frames
                          (MediaPipeClient.mk frame_count
                             (MediaPipeClient.frame_data_list self ++
                              [<["joint_positions" := PyDict landmarks]>
                                 frame_data])
                             (MediaPipeClient.id self)
                             (MediaPipeClient.joints self)
                             (MediaPipeClient.results_raw self) (Some shape))
                          limit frames'
                    end
                end
            end
        end
  end.

(** [process_video(limit)], lines 565-608. [video] is [None] when the
    capture cannot open the file, else the frames it decodes. *)
Definition process_video (self : MediaPipeClient.t)
    (video : option (list video_frame)) (limit : option Z)
    : MediaPipeClient.t * client_result unit :=
  let self :=
    MediaPipeClient.mk 0 (MediaPipeClient.frame_data_list self)
      (MediaPipeClient.id self) (MediaPipeClient.joints self)
      (MediaPipeClient.results_raw self)
      (MediaPipeClient.image_dimensions self) in
  match video with
  | None => (self, inl (MediaPipeClientError "Error opening file"))
  | Some frames => process_frames self limit frames
  end.

(** The record [serialize_pose_landmarks] writes for a landmark, [fh] and
    [fw] being the height and the width of the image as floats. *)
Definition landmark_record (landmark : Landmark.t) (fh fw : float)
    : gmap string pyval :=
  list_to_map
    [("x", PyFloat (Landmark.x landmark));
     ("y", PyFloat (Landmark.y landmark));
     ("z", PyFloat (Landmark.z landmark));
     ("x_normalized", PyFloat (PrimFloat.mul (Landmark.x landmark) fw));
     ("y_normalized", PyFloat (PrimFloat.mul (Landmark.y landmark) fh));
     ("z_normalized", PyFloat (PrimFloat.mul (Landmark.z landmark) fw))].

(** A frame the client can turn into an entry: the image has three
    dimensions, and the detection is absent, empty, or has a landmark for
    every joint while height and width are in the range of a float. *)
Definition video_frame_ok (frame : video_frame) : bool :=
  match frame with
  | ([h; w; _], None) | ([h; w; _], Some []) => true
  | ([h; w; _], Some pose_landmarks) =>
      bool_decide (length client_joints ≤ length pose_landmarks)%nat
      && match float_of_int h, float_of_int w with
         | inr _, inr _ => true
         | _, _ => false
         end
  | _ => false
  end.

(** A client that has read an image of 1080 rows and 1920 columns. *)
Definition sample_client : MediaPipeClient.t :=
  MediaPipeClient.mk 1 [] 7 client_joints [] (Some [1080; 1920; 3]%Z).

(** A detection of 33 landmarks, and a short video. *)
Definition sample_landmark : Landmark.t :=
  Landmark.mk 0.5 0.25 0.125.

Definition sample_detection : list Landmark.t :=
  replicate 33 sample_landmark.

Definition sample_video : list video_frame :=
  [([1080; 1920; 3]%Z, Some sample_detection);
   ([1080; 1920; 3]%Z, None);
   ([1080; 1920; 3]%Z, Some sample_detection)].

(** * Properties *)

(** ** The result monad *)

Lemma bind_inr {A B} (a : A) (k : A → result B) : (inr a ≫= k) = k a.
Proof. reflexivity. Qed.

Lemma bind_inl {A B} (e : exn) (k : A → result B) : (inl e ≫= k) = inl e.
Proof. reflexivity. Qed.

Lemma bind_ret {A B} (a : A) (k : A → result B) : (mret a ≫= k) = k a.
Proof. reflexivity. Qed.

Lemma bind_raise {A B} (e : exn) (k : A → result B) : (raise e ≫= k) = inl e.
Proof. reflexivity. Qed.

Lemma dict_getitem_Some d key v :
  d !! key = Some v → dict_getitem d key = inr v.
Proof. intros H. unfold dict_getitem. by rewrite H. Qed.

Lemma dict_getitem_None d key :
  d !! key = None → dict_getitem d key = inl (KeyError key).
Proof. intros H. unfold dict_getitem. by rewrite H. Qed.

Lemma dict_contains_true key d :
  dict_contains key d = true ↔ is_Some (d !! key).
Proof.
  unfold dict_contains.
  destruct (d !! key) as [v|]; split; intros H;
    first [done | by eexists | by destruct H].
Qed.

Lemma elem_of_dict_keys key (d : gmap string pyval) :
  key ∈ dict_keys d ↔ is_Some (d !! key).
Proof.
  unfold dict_keys. rewrite list_elem_of_fmap. split.
  - intros [[k v] [-> Hin]]. apply elem_of_map_to_list in Hin. by eexists.
  - intros [v Hv]. exists (key, v). split; [done|]. by apply elem_of_map_to_list.
Qed.

(** Membership in a list that is written out. *)
Ltac in_literal := apply list_elem_of_In; simpl; tauto.

(** ** Joint *)

(** The guard of [Joint.__init__] passes exactly when the record has no key
    outside the required ones. *)
Lemma Joint_guard_true (joint_data : gmap string pyval) :
  forallb (λ key, bool_decide (key ∈ Joint.required_keys))
          (dict_keys joint_data) = true
  ↔ ∀ key, is_Some (joint_data !! key) → key ∈ Joint.required_keys.
Proof.
  rewrite forallb_forall. split.
  - intros H key Hk. apply elem_of_dict_keys, list_elem_of_In in Hk.
    apply H in Hk. by apply bool_decide_eq_true in Hk.
  - intros H key Hk. apply list_elem_of_In, elem_of_dict_keys in Hk.
    apply bool_decide_eq_true. auto.
Qed.

(** C10: a record holding the seven required keys and one more key is
    refused with [JointError], although nothing required is missing. *)
Theorem Joint_init_rejects_extra_key (name : string)
    (joint_data : gmap string pyval) (extra : string) :
  (∀ key, key ∈ Joint.required_keys → is_Some (joint_data !! key)) →
  is_Some (joint_data !! extra) →
  extra ∉ Joint.required_keys →
  Joint_init name joint_data
  = inl (JointError
           "The required data is missing from the joint data dictionary.").
Proof.
  intros _ Hextra Hnot. unfold Joint_init.
  destruct (forallb _ _) eqn:Hguard; [|done].
  apply Joint_guard_true with (key := extra) in Hguard; [|done].
  by destruct Hnot.
Qed.

Lemma Joint_init_rejects_extra_key_witness :
  Joint_init "nose"
    (<["visibility" := PyFloat 0.5]>
       (<["image_dimensions" := sample_image_dimensions]> sample_coordinates))
  = inl (JointError
           "The required data is missing from the joint data dictionary.").
Proof.
  apply (Joint_init_rejects_extra_key "nose" _ "visibility").
  - intros key Hkey. apply dict_contains_true.
    unfold Joint.required_keys in Hkey. rewrite !elem_of_cons in Hkey.
    set_unfold. destruct Hkey as [->|[->|[->|[->|[->|[->|[->|[]]]]]]]];
      vm_compute; reflexivity.
  - apply dict_contains_true. vm_compute. reflexivity.
  - unfold Joint.required_keys. rewrite !elem_of_cons, elem_of_nil.
    intros H. repeat (destruct H as [H|H]; [discriminate H|]). exact H.
Defined.

(** C2, as the code has it: when no key of the record is outside the
    required ones and a required key is absent, the guard passes and the
    first absent key, in the order the attributes are read, surfaces as a
    [KeyError]; no [JointError] is raised. *)
Theorem Joint_init_missing_key_KeyError (name : string)
    (joint_data : gmap string pyval) (missing : string) :
  (∀ key, is_Some (joint_data !! key) → key ∈ Joint.required_keys) →
  missing ∈ Joint.required_keys →
  joint_data !! missing = None →
  ∃ key, key ∈ Joint.required_keys ∧ joint_data !! key = None ∧
         Joint_init name joint_data = inl (KeyError key).
Proof.
  intros Hkeys Hin Hmissing. unfold Joint_init.
  apply Joint_guard_true in Hkeys. rewrite Hkeys. cbn [negb].
  unfold Joint.required_keys in *.
  destruct (joint_data !! "image_dimensions") as [v0|] eqn:H0;
    [rewrite (dict_getitem_Some _ _ _ H0), bind_inr
    |exists "image_dimensions"; rewrite (dict_getitem_None _ _ H0);
     split_and!; [in_literal|done|done] ].
  destruct (joint_data !! "x") as [v1|] eqn:H1;
    [rewrite (dict_getitem_Some _ _ _ H1), bind_inr
    |exists "x"; rewrite (dict_getitem_None _ _ H1);
     split_and!; [in_literal|done|done] ].
  destruct (joint_data !! "y") as [v2|] eqn:H2;
    [rewrite (dict_getitem_Some _ _ _ H2), bind_inr
    |exists "y"; rewrite (dict_getitem_None _ _ H2);
     split_and!; [in_literal|done|done] ].
  destruct (joint_data !! "z") as [v3|] eqn:H3;
    [rewrite (dict_getitem_Some _ _ _ H3), bind_inr
    |exists "z"; rewrite (dict_getitem_None _ _ H3);
     split_and!; [in_literal|done|done] ].
  destruct (joint_data !! "x_normalized") as [v4|] eqn:H4;
    [rewrite (dict_getitem_Some _ _ _ H4), bind_inr
    |exists "x_normalized"; rewrite (dict_getitem_None _ _ H4);
     split_and!; [in_literal|done|done] ].
  destruct (joint_data !! "y_normalized") as [v5|] eqn:H5;
    [rewrite (dict_getitem_Some _ _ _ H5), bind_inr
    |exists "y_normalized"; rewrite (dict_getitem_None _ _ H5);
     split_and!; [in_literal|done|done] ].
  destruct (joint_data !! "z_normalized") as [v6|] eqn:H6;
    [rewrite (dict_getitem_Some _ _ _ H6), bind_inr
    |exists "z_normalized"; rewrite (dict_getitem_None _ _ H6);
     split_and!; [in_literal|done|done] ].
  exfalso. rewrite !elem_of_cons, elem_of_nil in Hin.
  destruct Hin as [->|[->|[->|[->|[->|[->|[->|[]]]]]]]]; congruence.
Qed.

Lemma Joint_init_missing_key_KeyError_witness :
  ∃ key, key ∈ Joint.required_keys ∧
         (<["image_dimensions" := sample_image_dimensions]>
            (delete "x" sample_coordinates)) !! key = None ∧
         Joint_init "nose"
           (<["image_dimensions" := sample_image_dimensions]>
              (delete "x" sample_coordinates))
         = inl (KeyError key).
Proof.
  apply (Joint_init_missing_key_KeyError "nose" _ "x").
  - apply Joint_guard_true. vm_compute. reflexivity.
  - in_literal.
  - vm_compute. reflexivity.
Defined.

(** ** Sequence validation *)

Lemma truthy_dict (d : gmap string pyval) : truthy (PyDict d) = true ↔ d ≠ ∅.
Proof.
  cbn [truthy]. rewrite negb_true_iff, bool_decide_eq_false.
  by rewrite dom_empty_iff_L.
Qed.

Lemma validate_required_keys_inr keys (frame_data : gmap string pyval) :
  validate_required_keys keys frame_data = inr tt
  ↔ ∀ key, key ∈ keys → is_Some (frame_data !! key).
Proof.
  induction keys as [|key keys IH]; cbn [validate_required_keys].
  - split; [|done]. intros _ key Hkey. by apply elem_of_nil in Hkey.
  - destruct (dict_contains key frame_data) eqn:Hkey; cbn [negb].
    + rewrite IH. apply dict_contains_true in Hkey. split.
      * intros H k Hk. apply elem_of_cons in Hk as [->|Hk]; auto.
      * intros H k Hk. apply H. by apply list_elem_of_further.
    + split; [done|]. intros H.
      assert (is_Some (frame_data !! key)) as Hsome
        by (apply H, list_elem_of_here).
      apply dict_contains_true in Hsome. congruence.
Qed.

Lemma validate_positions_dict names (d : gmap string pyval) :
  (∀ pos, pos ∈ names → is_Some (d !! pos)) →
  validate_positions names (PyDict d) = inr tt.
Proof.
  induction names as [|pos names IH]; intros H; cbn [validate_positions];
    [done|].
  cbn [py_contains]. rewrite bind_ret.
  assert (dict_contains pos d = true) as ->
    by (apply dict_contains_true, H, list_elem_of_here).
  cbn [negb]. apply IH. intros k Hk. apply H. by apply list_elem_of_further.
Qed.

(** [validate_pose_schema] returns [True] or raises: the [raise] of
    [BlazePoseSequence.__init__] (line 394) is never reached. *)
Lemma validate_pose_schema_never_False names frame_data :
  validate_pose_schema names frame_data ≠ inr false.
Proof.
  unfold validate_pose_schema.
  destruct (validate_required_keys _ _) as [e|[]]; [done|]. rewrite bind_inr.
  destruct (dict_getitem _ _) as [e|v]; [done|]. rewrite bind_inr.
  destruct (negb (truthy v)); [done|].
  by destruct (validate_positions _ _) as [e|[]].
Qed.

Lemma validate_pose_schema_cases names frame_data :
  validate_pose_schema names frame_data = inr true
  ∨ ∃ e, validate_pose_schema names frame_data = inl e.
Proof.
  destruct (validate_pose_schema names frame_data) as [e|[|]] eqn:H; eauto.
  by apply validate_pose_schema_never_False in H.
Qed.

Lemma validate_pose_schema_top_level names frame_data :
  validate_pose_schema names frame_data = inr true →
  ∀ key, key ∈ required_keys → is_Some (frame_data !! key).
Proof.
  unfold validate_pose_schema. intros H.
  destruct (validate_required_keys _ _) as [e|[]] eqn:Hkeys; [done|].
  by apply validate_required_keys_inr.
Qed.

Lemma validate_sequence_inr names sequence :
  validate_sequence names sequence = inr tt
  ↔ Forall (λ frame, validate_pose_schema names frame = inr true) sequence.
Proof.
  induction sequence as [|frame sequence IH]; cbn [validate_sequence].
  - split; [by constructor|done].
  - destruct (validate_pose_schema_cases names frame) as [H|[e H]];
      rewrite H.
    + rewrite bind_inr. cbn [negb]. rewrite IH. split.
      * by constructor.
      * by inversion 1.
    + rewrite bind_inl. split; [done|]. inversion 1; congruence.
Qed.

Lemma validate_sequence_first_invalid names pre bad post e :
  Forall (λ frame, validate_pose_schema names frame = inr true) pre →
  validate_pose_schema names bad = inl e →
  validate_sequence names (pre ++ bad :: post) = inl e.
Proof.
  intros Hpre Hbad. induction Hpre as [|frame pre Hframe _ IH];
    cbn [app validate_sequence].
  - by rewrite Hbad.
  - by rewrite Hframe, bind_inr.
Qed.

Lemma first_invalid_entry names sequence :
  Exists (λ frame, validate_pose_schema names frame ≠ inr true) sequence →
  ∃ pre bad post e,
    sequence = pre ++ bad :: post ∧
    Forall (λ frame, validate_pose_schema names frame = inr true) pre ∧
    validate_pose_schema names bad = inl e.
Proof.
  induction sequence as [|frame sequence IH]; intros Hex;
    [by apply Exists_nil in Hex|].
  destruct (validate_pose_schema_cases names frame) as [Hok|[e He]].
  - apply Exists_cons in Hex as [Hbad|Hex]; [done|].
    destruct (IH Hex) as (pre & bad & post & e & -> & Hpre & Hbad).
    exists (frame :: pre), bad, post, e. split_and!; [done| |done].
    by constructor.
  - exists [], frame, sequence, e. split_and!; [done| |done]. constructor.
Qed.

(** C7: when some entry fails validation, construction raises the error of
    the first such entry and returns no sequence, whatever the entries
    before it were. *)
Theorem BlazePoseSequence_init_all_or_nothing
    (sequence : list (gmap string pyval)) :
  Exists (λ frame,
            validate_pose_schema sequence_joint_positions frame ≠ inr true)
         sequence →
  ∃ pre bad post e,
    sequence = pre ++ bad :: post ∧
    Forall (λ frame,
              validate_pose_schema sequence_joint_positions frame = inr true)
           pre ∧
    validate_pose_schema sequence_joint_positions bad = inl e ∧
    BlazePoseSequence_init sequence = inl e.
Proof.
  intros Hex.
  destruct (first_invalid_entry _ _ Hex)
    as (pre & bad & post & e & -> & Hpre & Hbad).
  exists pre, bad, post, e. split_and!; [done..|].
  unfold BlazePoseSequence_init.
  by rewrite (validate_sequence_first_invalid _ _ _ _ _ Hpre Hbad).
Qed.

Lemma BlazePoseSequence_init_all_or_nothing_witness :
  ∃ pre bad post e,
    sample_sequence_invalid = pre ++ bad :: post ∧
    Forall (λ frame,
              validate_pose_schema sequence_joint_positions frame = inr true)
           pre ∧
    validate_pose_schema sequence_joint_positions bad = inl e ∧
    BlazePoseSequence_init sample_sequence_invalid = inl e.
Proof.
  apply BlazePoseSequence_init_all_or_nothing.
  unfold sample_sequence_invalid. apply Exists_cons_tl, Exists_cons_hd.
  vm_compute. discriminate.
Defined.

(** C1, counterexample: the entry names all 33 joints, the record of
    [left_knee] has no [z_normalized], and the entry is accepted. *)
Lemma validate_pose_schema_accepts_missing_coordinate :
  sample_knee !! "joint_positions" = Some (PyDict sample_knee_joint_positions)
  ∧ truthy (PyDict sample_knee_joint_positions) = true
  ∧ forallb (λ joint, dict_contains joint sample_knee_joint_positions)
            sequence_joint_positions = true
  ∧ (raw_coordinate (PyDict sample_knee_joint_positions)
       "left_knee" "z_normalized" = inl (KeyError "z_normalized"))
  ∧ validate_pose_schema sequence_joint_positions sample_knee = inr true.
Proof. split_and!; reflexivity. Qed.

(** ** Frame validation *)

Lemma validate_joint_keys_dict joint (d r : gmap string pyval) keys :
  d !! joint = Some (PyDict r) →
  (forallb (λ key, dict_contains key r) keys = true ∧
   validate_joint_keys joint (PyDict d) keys = inr tt)
  ∨ (∃ key, key ∈ keys ∧ r !! key = None ∧
            validate_joint_keys joint (PyDict d) keys
            = inl (BlazePoseFrameError (missing_key_message key joint))).
Proof.
  intros Hjoint. induction keys as [|key keys IH];
    cbn [validate_joint_keys forallb]; [by left|].
  cbn [py_getitem]. rewrite (dict_getitem_Some _ _ _ Hjoint), bind_inr.
  cbn [py_contains]. rewrite bind_ret.
  destruct (dict_contains key r) eqn:Hkey; cbn [andb].
  - destruct IH as [IH|(k & Hk & Hnone & IH)]; [by left|right].
    exists k. split_and!; [by apply list_elem_of_further|done..].
  - right. exists key. split_and!; [apply list_elem_of_here| |done].
    destruct (r !! key) eqn:Hr; [|done].
    assert (dict_contains key r = true)
      by (apply dict_contains_true; eauto).
    congruence.
Qed.

(** On a dictionary whose joints are all dictionaries, the validation of a
    frame either finds every coordinate key, or raises for the first joint
    and the first key that is missing, naming both. *)
Lemma validate_joint_names_dict names (d : gmap string pyval) :
  (∀ joint, joint ∈ names → ∃ r, d !! joint = Some (PyDict r)) →
  (forallb (λ joint, match d !! joint with
                     | Some record => record_complete record
                     | None => false
                     end) names = true ∧
   validate_joint_names names (PyDict d) = inr tt)
  ∨ (∃ joint key r,
       joint ∈ names ∧ key ∈ required_joint_keys ∧
       d !! joint = Some (PyDict r) ∧ r !! key = None ∧
       validate_joint_names names (PyDict d)
       = inl (BlazePoseFrameError (missing_key_message key joint))).
Proof.
  induction names as [|joint names IH]; intros Hrecords;
    cbn [validate_joint_names forallb]; [by left|].
  destruct (Hrecords joint) as [r Hr]; [apply list_elem_of_here|].
  cbn [py_contains]. rewrite bind_ret.
  assert (dict_contains joint d = true) as ->
    by (apply dict_contains_true; eauto).
  rewrite Hr. cbn [record_complete].
  destruct (validate_joint_keys_dict joint d r required_joint_keys Hr)
    as [[-> ->]|(key & Hkey & Hnone & ->)].
  - rewrite bind_inr. cbn [andb].
    destruct IH as [IH|(j & k & r' & Hj & Hk & Hr' & Hnone & IH)].
    { intros j Hj. apply Hrecords. by apply list_elem_of_further. }
    + by left.
    + right. exists j, k, r'.
      split_and!; [by apply list_elem_of_further|done..].
  - right. exists joint, key, r.
    split_and!; [apply list_elem_of_here|done..].
Qed.

Lemma joints_complete_records (d : gmap string pyval) :
  joints_complete (PyDict d) = true →
  ∀ joint, joint ∈ frame_joint_position_names →
    ∃ r, d !! joint = Some (PyDict r) ∧
         ∀ key, key ∈ required_joint_keys → is_Some (r !! key).
Proof.
  cbn [joints_complete]. rewrite forallb_forall. intros H joint Hjoint.
  apply list_elem_of_In, H in Hjoint.
  destruct (d !! joint) as [[| | | |r]|]; try done.
  exists r. split; [done|]. intros key Hkey.
  cbn [record_complete] in Hjoint. rewrite forallb_forall in Hjoint.
  by apply dict_contains_true, Hjoint, list_elem_of_In.
Qed.

Lemma joints_complete_validates (d : gmap string pyval) :
  joints_complete (PyDict d) = true →
  validate_joint_names frame_joint_position_names (PyDict d) = inr tt.
Proof.
  intros Hcomplete.
  destruct (validate_joint_names_dict frame_joint_position_names d)
    as [[_ H]|(joint & key & r & Hjoint & Hkey & Hr & Hnone & _)]; [|done|].
  - intros joint Hjoint.
    destruct (joints_complete_records d Hcomplete joint Hjoint) as (r & ? & _).
    eauto.
  - destruct (joints_complete_records d Hcomplete joint Hjoint)
      as (r' & Hr' & Hkeys).
    destruct (Hkeys key Hkey) as [v Hv]. congruence.
Qed.

Lemma joints_complete_truthy joint_positions :
  joints_complete joint_positions = true → truthy joint_positions = true.
Proof.
  destruct joint_positions as [| | | |d]; try done. intros H.
  apply truthy_dict. intros ->.
  destruct (joints_complete_records ∅ H "nose") as (r & Hr & _);
    [in_literal|]. by rewrite lookup_empty in Hr.
Qed.

(** ** Frame construction *)

Section FrameProperties.

Variable get_plumbline_vector :
  BlazePoseFrame.t → result (list point * list point).

Lemma top_level_lookups (frame_data : gmap string pyval) :
  (∀ key, key ∈ required_keys → is_Some (frame_data !! key)) →
  ∃ sequence_id sequence_source frame_number image_dimensions joint_positions,
    frame_data !! "sequence_id" = Some sequence_id ∧
    frame_data !! "sequence_source" = Some sequence_source ∧
    frame_data !! "frame_number" = Some frame_number ∧
    frame_data !! "image_dimensions" = Some image_dimensions ∧
    frame_data !! "joint_positions" = Some joint_positions.
Proof.
  intros H.
  destruct (H "sequence_id") as [v1 H1]; [in_literal|].
  destruct (H "sequence_source") as [v2 H2]; [in_literal|].
  destruct (H "frame_number") as [v3 H3]; [in_literal|].
  destruct (H "image_dimensions") as [v4 H4]; [in_literal|].
  destruct (H "joint_positions") as [v5 H5]; [in_literal|].
  by exists v1, v2, v3, v4, v5.
Qed.

(** The constructor once the five top-level values are read. *)
Lemma BlazePoseFrame_init_read (frame_data : gmap string pyval)
    sequence_id sequence_source frame_number image_dimensions joint_positions :
  frame_data !! "sequence_id" = Some sequence_id →
  frame_data !! "sequence_source" = Some sequence_source →
  frame_data !! "frame_number" = Some frame_number →
  frame_data !! "image_dimensions" = Some image_dimensions →
  frame_data !! "joint_positions" = Some joint_positions →
  let self := frame_before_joints frame_number joint_positions
                image_dimensions sequence_id sequence_source in
  BlazePoseFrame_init get_plumbline_vector frame_data
  = if truthy joint_positions then
      _ ← validate_joint_position_data self joint_positions;
      let self := BlazePoseFrame.set_joint_positions_raw joint_positions self in
      joints ← set_joint_positions self;
      let self := BlazePoseFrame.set_joints joints self in
      '(self, returned) ← generate_angle_measurements get_plumbline_vector self;
      mret (BlazePoseFrame.set_angles returned self)
    else mret self.
Proof.
  intros H1 H2 H3 H4 H5. unfold BlazePoseFrame_init.
  rewrite (dict_getitem_Some _ _ _ H3), bind_inr.
  rewrite (dict_getitem_Some _ _ _ H5), bind_inr.
  rewrite (dict_getitem_Some _ _ _ H4), bind_inr.
  rewrite (dict_getitem_Some _ _ _ H1), bind_inr.
  rewrite (dict_getitem_Some _ _ _ H2), bind_inr.
  reflexivity.
Qed.

(** C9: an entry with the five top-level keys and an empty
    [joint_positions] dictionary is built without an exception, with
    [has_joint_positions = False] and empty [joints] and [angles]. *)
Theorem BlazePoseFrame_init_empty_joint_positions
    (frame_data : gmap string pyval) :
  (∀ key, key ∈ required_keys → is_Some (frame_data !! key)) →
  frame_data !! "joint_positions" = Some (PyDict ∅) →
  ∃ self,
    BlazePoseFrame_init get_plumbline_vector frame_data = inr self ∧
    BlazePoseFrame.has_joint_positions self = false ∧
    BlazePoseFrame.joints self = ∅ ∧
    BlazePoseFrame.angles self = Some ∅.
Proof.
  intros Hkeys Hempty.
  destruct (top_level_lookups _ Hkeys) as (v1 & v2 & v3 & v4 & v5 & H1 & H2 & H3 & H4 & H5).
  rewrite Hempty in H5. injection H5 as <-.
  rewrite (BlazePoseFrame_init_read _ _ _ _ _ _ H1 H2 H3 H4 Hempty).
  assert (truthy (PyDict ∅) = false) as -> by reflexivity.
  eexists. split; [reflexivity|]. by split_and!.
Qed.

End FrameProperties.

Lemma BlazePoseFrame_init_empty_joint_positions_witness :
  ∃ self,
    BlazePoseFrame_init (plumbline_returning ([], [])) sample_undetected
    = inr self ∧
    BlazePoseFrame.has_joint_positions self = false ∧
    BlazePoseFrame.joints self = ∅ ∧
    BlazePoseFrame.angles self = Some ∅.
Proof.
  apply BlazePoseFrame_init_empty_joint_positions.
  - intros key Hkey. apply dict_contains_true.
    apply list_elem_of_In in Hkey. simpl in Hkey.
    destruct Hkey as [<-|[<-|[<-|[<-|[<-|[]]]]]]; vm_compute; reflexivity.
  - vm_compute. reflexivity.
Defined.

(** ** Landmarks of a frame *)

(** The dictionary [set_joint_positions] hands to [Joint] has the seven
    required keys and no other: the guard passes and no key is missing. *)
Lemma Joint_init_of_literal name image_dimensions x y z xn yn zn :
  Joint_init name
    (list_to_map
       [("image_dimensions", image_dimensions); ("x", x); ("y", y); ("z", z);
        ("x_normalized", xn); ("y_normalized", yn); ("z_normalized", zn)])
  = inr (Joint.mk name x y z xn yn zn image_dimensions).
Proof. vm_compute. reflexivity. Qed.

Lemma raw_coordinate_dict (d r : gmap string pyval) joint key v :
  d !! joint = Some (PyDict r) → r !! key = Some v →
  raw_coordinate (PyDict d) joint key = inr v.
Proof.
  intros Hd Hr. unfold raw_coordinate. cbn [py_getitem].
  rewrite (dict_getitem_Some _ _ _ Hd), bind_inr. cbn [py_getitem].
  by apply dict_getitem_Some.
Qed.

(** On complete landmarks the loop of [set_joint_positions] returns, and
    adds exactly the names it went through. *)
Lemma set_joint_positions_loop_complete self (d : gmap string pyval) names :
  BlazePoseFrame.joint_positions_raw self = Some (PyDict d) →
  (∀ joint, joint ∈ names →
     ∃ r, d !! joint = Some (PyDict r) ∧
          ∀ key, key ∈ required_joint_keys → is_Some (r !! key)) →
  ∀ joint_positions,
  ∃ joints,
    set_joint_positions_loop self names joint_positions = inr joints ∧
    ∀ joint, is_Some (joints !! joint)
             ↔ joint ∈ names ∨ is_Some (joint_positions !! joint).
Proof.
  intros Hraw. induction names as [|joint names IH]; intros Hcomplete acc.
  - exists acc. split; [done|]. intros j. rewrite elem_of_nil. tauto.
  - destruct (Hcomplete joint) as (r & Hr & Hkeys); [apply list_elem_of_here|].
    destruct (Hkeys "x") as [x Hx]; [in_literal|].
    destruct (Hkeys "y") as [y Hy]; [in_literal|].
    destruct (Hkeys "z") as [z Hz]; [in_literal|].
    destruct (Hkeys "x_normalized") as [xn Hxn]; [in_literal|].
    destruct (Hkeys "y_normalized") as [yn Hyn]; [in_literal|].
    destruct (Hkeys "z_normalized") as [zn Hzn]; [in_literal|].
    cbn [set_joint_positions_loop]. rewrite Hraw, bind_ret.
    rewrite (raw_coordinate_dict _ _ _ _ _ Hr Hx), bind_inr.
    rewrite (raw_coordinate_dict _ _ _ _ _ Hr Hy), bind_inr.
    rewrite (raw_coordinate_dict _ _ _ _ _ Hr Hz), bind_inr.
    rewrite (raw_coordinate_dict _ _ _ _ _ Hr Hxn), bind_inr.
    rewrite (raw_coordinate_dict _ _ _ _ _ Hr Hyn), bind_inr.
    rewrite (raw_coordinate_dict _ _ _ _ _ Hr Hzn), bind_inr.
    cbv zeta. rewrite Joint_init_of_literal, bind_inr.
    destruct (IH (λ j Hj, Hcomplete j (list_elem_of_further _ _ _ Hj))
                 (<[joint := Joint.mk joint x y z xn yn zn
                               (BlazePoseFrame.image_dimensions self)]> acc))
      as (joints & -> & Hdom).
    exists joints. split; [done|]. intros j.
    rewrite Hdom, lookup_insert_is_Some, elem_of_cons.
    split.
    + intros [H|[->|[_ H]]]; [left; by right|left; by left|by right].
    + intros [[->|H]|H]; [right; by left|by left|].
      destruct (decide (joint = j)) as [->|Hne]; right; [by left|by right].
Qed.

Section DetectedFrames.

Variable get_plumbline_vector :
  BlazePoseFrame.t → result (list point * list point).

(** Whatever [get_plumbline_vector] does, a frame built from landmarks has
    [angles = None]: line 205 stores what [generate_angle_measurements]
    returns, and that method returns nothing. *)
Lemma BlazePoseFrame_init_angles (frame_data : gmap string pyval)
    joint_positions self :
  frame_data !! "joint_positions" = Some joint_positions →
  truthy joint_positions = true →
  BlazePoseFrame_init get_plumbline_vector frame_data = inr self →
  BlazePoseFrame.angles self = None ∧
  BlazePoseFrame.has_joint_positions self = true.
Proof.
  intros Hjp Htruthy. unfold BlazePoseFrame_init.
  destruct (dict_getitem frame_data "frame_number") as [e|v3]; [done|].
  rewrite bind_inr, (dict_getitem_Some _ _ _ Hjp), bind_inr.
  destruct (dict_getitem frame_data "image_dimensions") as [e|v4]; [done|].
  rewrite bind_inr.
  destruct (dict_getitem frame_data "sequence_id") as [e|v1]; [done|].
  rewrite bind_inr.
  destruct (dict_getitem frame_data "sequence_source") as [e|v2]; [done|].
  rewrite bind_inr. cbv zeta. rewrite Htruthy, bind_inr.
  destruct (validate_joint_position_data _ _) as [e|b]; [done|].
  rewrite !bind_inr.
  destruct (set_joint_positions _) as [e|joints]; [done|].
  rewrite bind_inr. unfold generate_angle_measurements.
  cbn [BlazePoseFrame.has_joint_positions BlazePoseFrame.set_joints
       BlazePoseFrame.set_joint_positions_raw negb].
  destruct (get_plumbline_vector _) as [e|v]; [done|].
  rewrite bind_inr, bind_ret. cbn. intros [= <-]. by cbn.
Qed.

(** On complete landmarks, and when [get_plumbline_vector] returns, the
    constructor returns a frame with one landmark for each name of the
    vocabulary. *)
Lemma BlazePoseFrame_init_complete (frame_data : gmap string pyval)
    joint_positions :
  (∀ key, key ∈ required_keys → is_Some (frame_data !! key)) →
  frame_data !! "joint_positions" = Some joint_positions →
  joints_complete joint_positions = true →
  (∀ frame, ∃ v, get_plumbline_vector frame = inr v) →
  ∃ self,
    BlazePoseFrame_init get_plumbline_vector frame_data = inr self ∧
    ∀ joint, is_Some (BlazePoseFrame.joints self !! joint)
             ↔ joint ∈ frame_joint_position_names.
Proof.
  intros Hkeys Hjp Hcomplete Hplumb.
  destruct (top_level_lookups _ Hkeys)
    as (v1 & v2 & v3 & v4 & v5 & H1 & H2 & H3 & H4 & H5).
  rewrite Hjp in H5. injection H5 as <-.
  rewrite (BlazePoseFrame_init_read _ _ _ _ _ _ _ H1 H2 H3 H4 Hjp).
  pose proof (joints_complete_truthy _ Hcomplete) as Htruthy.
  rewrite Htruthy.
  destruct joint_positions as [| | | |d]; try done.
  unfold validate_joint_position_data.
  cbn [frame_before_joints BlazePoseFrame.joint_position_names].
  rewrite (joints_complete_validates _ Hcomplete), bind_inr, bind_ret.
  cbv zeta. unfold set_joint_positions, frame_before_joints.
  cbn [BlazePoseFrame.set_joint_positions_raw
       BlazePoseFrame.has_joint_positions BlazePoseFrame.joint_position_names].
  rewrite Htruthy. cbn [negb].
  match goal with
  | |- context [set_joint_positions_loop ?self ?names ∅] =>
      destruct (set_joint_positions_loop_complete self d names eq_refl
                  (joints_complete_records d Hcomplete) ∅)
        as (joints & -> & Hdom)
  end.
  rewrite bind_inr. unfold generate_angle_measurements.
  cbn [BlazePoseFrame.set_joints BlazePoseFrame.has_joint_positions negb].
  match goal with
  | |- context [get_plumbline_vector ?self] =>
      destruct (Hplumb self) as [v ->]
  end.
  eexists. split; [reflexivity|].
  cbn. intros joint. rewrite Hdom, lookup_empty. split; [|by left].
  intros [H|H]; [done|]. by destruct H.
Qed.

End DetectedFrames.

Lemma vocabularies_agree :
  sequence_joint_positions = frame_joint_position_names.
Proof. reflexivity. Qed.

Lemma sample_frame_data_keys frame_number joint_positions key :
  key ∈ required_keys →
  is_Some (sample_frame_data frame_number joint_positions !! key).
Proof.
  intros Hkey. apply dict_contains_true.
  apply list_elem_of_In in Hkey. simpl in Hkey.
  destruct Hkey as [<-|[<-|[<-|[<-|[<-|[]]]]]]; vm_compute; reflexivity.
Qed.

Lemma sample_frame_data_joint_positions frame_number joint_positions :
  sample_frame_data frame_number joint_positions !! "joint_positions"
  = Some joint_positions.
Proof. reflexivity. Qed.

Lemma sample_joint_positions_lookup record joint :
  joint ∈ frame_joint_position_names →
  sample_joint_positions record !! joint = Some record.
Proof.
  intros Hjoint. apply list_elem_of_In in Hjoint. simpl in Hjoint.
  repeat (destruct Hjoint as [<-|Hjoint]; [reflexivity|]).
  destruct Hjoint.
Qed.

Lemma sample_knee_records joint :
  joint ∈ sequence_joint_positions →
  ∃ r, sample_knee_joint_positions !! joint = Some (PyDict r).
Proof.
  intros Hjoint. unfold sample_knee_joint_positions.
  destruct (decide ("left_knee" = joint)) as [<-|Hne].
  - rewrite lookup_insert_eq. eauto.
  - rewrite lookup_insert_ne by done.
    rewrite sample_joint_positions_lookup by done. eauto.
Qed.

(** C3, as the code has it: from a record with complete landmarks the
    constructor never yields a frame whose [angles] is a dictionary. Any
    frame it returns has [angles = None], and it does return one, with all
    33 landmarks, as soon as [get_plumbline_vector] returns. *)
Theorem BlazePoseFrame_init_angles_None
    (get_plumbline_vector : BlazePoseFrame.t → result (list point * list point))
    (frame_data : gmap string pyval) (joint_positions : pyval) :
  (∀ key, key ∈ required_keys → is_Some (frame_data !! key)) →
  frame_data !! "joint_positions" = Some joint_positions →
  joints_complete joint_positions = true →
  (∀ self, BlazePoseFrame_init get_plumbline_vector frame_data = inr self →
           BlazePoseFrame.angles self = None)
  ∧ ((∀ frame, ∃ v, get_plumbline_vector frame = inr v) →
     ∃ self,
       BlazePoseFrame_init get_plumbline_vector frame_data = inr self ∧
       BlazePoseFrame.has_joint_positions self = true ∧
       (∀ joint, is_Some (BlazePoseFrame.joints self !! joint)
                 ↔ joint ∈ frame_joint_position_names) ∧
       BlazePoseFrame.angles self = None).
Proof.
  intros Hkeys Hjp Hcomplete.
  pose proof (joints_complete_truthy _ Hcomplete) as Htruthy.
  split.
  - intros self Hself.
    by destruct (BlazePoseFrame_init_angles _ _ _ _ Hjp Htruthy Hself).
  - intros Hplumb.
    destruct (BlazePoseFrame_init_complete get_plumbline_vector _ _
                Hkeys Hjp Hcomplete Hplumb) as (self & Hself & Hjoints).
    destruct (BlazePoseFrame_init_angles _ _ _ _ Hjp Htruthy Hself)
      as [Hangles Hhas].
    by exists self.
Qed.

Lemma BlazePoseFrame_init_angles_None_witness :
  ∃ self,
    BlazePoseFrame_init (plumbline_returning ([], [])) sample_detected
    = inr self ∧
    BlazePoseFrame.has_joint_positions self = true ∧
    (∀ joint, is_Some (BlazePoseFrame.joints self !! joint)
              ↔ joint ∈ frame_joint_position_names) ∧
    BlazePoseFrame.angles self = None.
Proof.
  destruct (BlazePoseFrame_init_angles_None (plumbline_returning ([], []))
              sample_detected
              (PyDict (sample_joint_positions (PyDict sample_coordinates))))
    as [_ H].
  - apply sample_frame_data_keys.
  - reflexivity.
  - reflexivity.
  - apply H. intros frame. by exists ([], []).
Defined.

(** C1, amended: an entry with the five top-level keys that names all 33
    joints is accepted by [validate_pose_schema] although a joint lacks a
    coordinate key; the key is reported when the frame is built, by a
    [BlazePoseFrameError] that names the key and the joint. *)
Theorem validate_pose_schema_checks_names_only
    (frame_data joint_positions : gmap string pyval)
    (joint0 key0 : string) (record0 : gmap string pyval) :
  (∀ key, key ∈ required_keys → is_Some (frame_data !! key)) →
  frame_data !! "joint_positions" = Some (PyDict joint_positions) →
  (∀ joint, joint ∈ sequence_joint_positions →
     ∃ r, joint_positions !! joint = Some (PyDict r)) →
  joint0 ∈ sequence_joint_positions →
  joint_positions !! joint0 = Some (PyDict record0) →
  key0 ∈ required_joint_keys →
  record0 !! key0 = None →
  validate_pose_schema sequence_joint_positions frame_data = inr true
  ∧ ∃ joint key r,
      joint ∈ frame_joint_position_names ∧ key ∈ required_joint_keys ∧
      joint_positions !! joint = Some (PyDict r) ∧ r !! key = None ∧
      ∀ get_plumbline_vector,
        BlazePoseFrame_init get_plumbline_vector frame_data
        = inl (BlazePoseFrameError (missing_key_message key joint)).
Proof.
  intros Hkeys Hjp Hrecords Hjoint0 Hrecord0 Hkey0 Hmissing.
  assert (truthy (PyDict joint_positions) = true) as Htruthy.
  { apply truthy_dict. intros ->. by rewrite lookup_empty in Hrecord0. }
  split.
  - unfold validate_pose_schema.
    assert (validate_required_keys required_keys frame_data = inr tt) as ->
      by by apply validate_required_keys_inr.
    rewrite bind_inr, (dict_getitem_Some _ _ _ Hjp), bind_inr, Htruthy.
    cbn [negb]. rewrite validate_positions_dict; [done|].
    intros pos Hpos. destruct (Hrecords pos Hpos) as [r Hr]. eauto.
  - destruct (validate_joint_names_dict frame_joint_position_names
                joint_positions Hrecords)
      as [[Hall _]|(joint & key & r & Hjoint & Hkey & Hr & Hnone & Hraise)].
    + destruct (joints_complete_records joint_positions Hall joint0 Hjoint0)
        as (r & Hr & Hr_keys).
      rewrite Hrecord0 in Hr. injection Hr as <-.
      destruct (Hr_keys key0 Hkey0) as [v Hv]. congruence.
    + exists joint, key, r. split_and!; [done..|].
      intros get_plumbline_vector.
      destruct (top_level_lookups _ Hkeys)
        as (v1 & v2 & v3 & v4 & v5 & H1 & H2 & H3 & H4 & H5).
      rewrite (BlazePoseFrame_init_read _ _ _ _ _ _ _ H1 H2 H3 H4 Hjp).
      rewrite Htruthy. unfold validate_joint_position_data.
      cbn [frame_before_joints BlazePoseFrame.joint_position_names].
      by rewrite Hraise.
Qed.

Lemma validate_pose_schema_checks_names_only_witness :
  validate_pose_schema sequence_joint_positions sample_knee = inr true
  ∧ ∃ joint key r,
      joint ∈ frame_joint_position_names ∧ key ∈ required_joint_keys ∧
      sample_knee_joint_positions !! joint = Some (PyDict r) ∧
      r !! key = None ∧
      ∀ get_plumbline_vector,
        BlazePoseFrame_init get_plumbline_vector sample_knee
        = inl (BlazePoseFrameError (missing_key_message key joint)).
Proof.
  apply (validate_pose_schema_checks_names_only sample_knee
           sample_knee_joint_positions "left_knee" "z_normalized"
           (delete "z_normalized" sample_coordinates)).
  - apply sample_frame_data_keys.
  - reflexivity.
  - apply sample_knee_records.
  - in_literal.
  - reflexivity.
  - in_literal.
  - reflexivity.
Defined.

(** ** Vectors between landmarks *)

Lemma joint_attr_Some self name j attr :
  BlazePoseFrame.joints self !! name = Some j →
  joint_attr self name attr = inr (attr j).
Proof. intros H. unfold joint_attr, joint_of. by rewrite H. Qed.

(** C5, as the code has it: both end points of the first vector are the
    first joint, both end points of the second are the second joint, and
    all four are raw coordinates; no [*_normalized] field is read. *)
Theorem get_vector_repeats_each_joint (self : BlazePoseFrame.t)
    (joint_name1 joint_name2 : string) (j1 j2 : Joint.t) :
  BlazePoseFrame.joints self !! joint_name1 = Some j1 →
  BlazePoseFrame.joints self !! joint_name2 = Some j2 →
  get_vector self joint_name1 joint_name2
  = inr ([raw_point j1; raw_point j1], [raw_point j2; raw_point j2]).
Proof.
  intros H1 H2. unfold get_vector.
  rewrite !(joint_attr_Some _ _ _ _ H1), !(joint_attr_Some _ _ _ _ H2).
  reflexivity.
Qed.

Lemma get_vector_repeats_each_joint_witness :
  get_vector sample_frame "left_shoulder" "left_elbow"
  = inr ([raw_point sample_shoulder; raw_point sample_shoulder],
         [raw_point sample_elbow; raw_point sample_elbow]).
Proof.
  apply get_vector_repeats_each_joint; reflexivity.
Defined.

(** ** The text of [get_plumbline_vector] *)

(** C4, as the code has it: the three statements that should compute the
    image-scaled shoulder midpoint (lines 321-323) close a parenthesis
    that no token opened; every other statement of the body is well
    bracketed. The method cannot be compiled, and returns nothing. *)
Theorem get_plumbline_vector_ill_bracketed :
  List.filter (λ statement, negb (PlumblineSource.well_bracketed statement))
              PlumblineSource.body
  = ["x1_normalized =self.joints['left_shoulder'].x_normalized + self.joints['right_shoulder'].x_normalized)/2";
     "y1_normalized =self.joints['left_shoulder'].y_normalized + self.joints['right_shoulder'].y_normalized)/2";
     "z1_normalized =self.joints['left_shoulder'].z_normalized + self.joints['right_shoulder'].z_normalized)/2"]
  ∧ Forall (λ statement,
              PlumblineSource.well_bracketed statement = false →
              PlumblineSource.open_brackets [] false statement = None)
           PlumblineSource.body.
Proof.
  split; [vm_compute; reflexivity|].
  unfold PlumblineSource.body.
  repeat (constructor;
          [intros H; vm_compute in H |- *; first [discriminate H|reflexivity]|]).
  constructor.
Qed.

(** ** Frame generation *)

Section GenerationProperties.

Variable get_plumbline_vector :
  BlazePoseFrame.t → result (list point * list point).

(** When every entry can be built, the loop appends one frame for each
    entry, in the order of the entries. *)
Lemma generate_loop_returns sequence_data :
  Forall (λ frame_data,
            ∃ bpf, BlazePoseFrame_init get_plumbline_vector frame_data
                   = inr bpf) sequence_data →
  ∀ frames,
  ∃ new,
    generate_loop get_plumbline_vector frames sequence_data
    = (frames ++ new, inr tt) ∧
    Forall2 (λ frame_data bpf,
               BlazePoseFrame_init get_plumbline_vector frame_data = inr bpf)
            sequence_data new.
Proof.
  induction 1 as [|frame_data sequence_data [bpf Hbpf] _ IH]; intros frames.
  - exists []. split; [by rewrite app_nil_r|constructor].
  - cbn [generate_loop]. rewrite Hbpf.
    destruct (IH (frames ++ [bpf])) as (new & -> & Hnew).
    exists (bpf :: new). split; [by rewrite <- app_assoc|by constructor].
Qed.

(** The loop stops at the first entry that cannot be built; the frames of
    the entries before it stay appended. *)
Lemma generate_loop_raises pre bad post e new :
  Forall2 (λ frame_data bpf,
             BlazePoseFrame_init get_plumbline_vector frame_data = inr bpf)
          pre new →
  BlazePoseFrame_init get_plumbline_vector bad = inl e →
  ∀ frames,
    generate_loop get_plumbline_vector frames (pre ++ bad :: post)
    = (frames ++ new, inl e).
Proof.
  intros Hpre Hbad.
  induction Hpre as [|frame_data bpf pre new Hbpf _ IH]; intros frames.
  - cbn [app generate_loop]. by rewrite Hbad, app_nil_r.
  - cbn [app generate_loop]. rewrite Hbpf, IH. by rewrite <- app_assoc.
Qed.

Lemma BlazePoseSequence_init_inr sequence self :
  BlazePoseSequence_init sequence = inr self →
  self = BlazePoseSequence.mk sequence_joint_positions sequence [] ∧
  Forall (λ frame,
            validate_pose_schema sequence_joint_positions frame = inr true)
         sequence.
Proof.
  unfold BlazePoseSequence_init. intros H.
  destruct (validate_sequence _ _) as [e|[]] eqn:Hvalid; [done|].
  apply validate_sequence_inr in Hvalid. rewrite bind_inr in H.
  by injection H as <-.
Qed.

(** A validated entry that is complete can be built, provided
    [get_plumbline_vector] returns. *)
Lemma BlazePoseFrame_init_returns (frame_data : gmap string pyval) :
  validate_pose_schema sequence_joint_positions frame_data = inr true →
  entry_complete frame_data = true →
  (∀ frame, ∃ v, get_plumbline_vector frame = inr v) →
  ∃ bpf, BlazePoseFrame_init get_plumbline_vector frame_data = inr bpf.
Proof.
  intros Hvalid Hcomplete Hplumb.
  pose proof (validate_pose_schema_top_level _ _ Hvalid) as Hkeys.
  destruct (top_level_lookups _ Hkeys)
    as (v1 & v2 & v3 & v4 & v5 & H1 & H2 & H3 & H4 & H5).
  unfold entry_complete in Hcomplete. rewrite H5 in Hcomplete.
  destruct (truthy v5) eqn:Htruthy; cbn [negb orb] in Hcomplete.
  - destruct (BlazePoseFrame_init_complete get_plumbline_vector _ _
                Hkeys H5 Hcomplete Hplumb) as (bpf & Hbpf & _).
    eauto.
  - rewrite (BlazePoseFrame_init_read _ _ _ _ _ _ _ H1 H2 H3 H4 H5), Htruthy.
    eauto.
Qed.

(** C6, amended: for a sequence that was constructed from entries whose
    landmarks are absent or complete, one call of the generation step
    returns and leaves in [frames] exactly one frame for each entry, in the
    order of [sequence_data], each the frame its constructor builds from
    the entry (landmark validation included), provided
    [get_plumbline_vector] returns. *)
Theorem generate_frames_of_complete_sequence
    (sequence : list (gmap string pyval)) (self : BlazePoseSequence.t) :
  BlazePoseSequence_init sequence = inr self →
  Forall (λ frame_data, entry_complete frame_data = true) sequence →
  (∀ frame, ∃ v, get_plumbline_vector frame = inr v) →
  ∃ frames,
    generate_blaze_pose_frames_from_sequence get_plumbline_vector self
    = (BlazePoseSequence.mk (BlazePoseSequence.joint_positions self)
         sequence frames, inr tt) ∧
    length frames = length sequence ∧
    Forall2 (λ frame_data bpf,
               BlazePoseFrame_init get_plumbline_vector frame_data = inr bpf)
            sequence frames.
Proof.
  intros Hinit Hcomplete Hplumb.
  apply BlazePoseSequence_init_inr in Hinit as [-> Hvalid].
  assert (Forall (λ frame_data,
                    ∃ bpf, BlazePoseFrame_init get_plumbline_vector frame_data
                           = inr bpf) sequence) as Hbuilt.
  { rewrite Forall_forall in *. intros frame_data Hin.
    apply BlazePoseFrame_init_returns; auto. }
  destruct (generate_loop_returns sequence Hbuilt []) as (new & Hloop & Hnew).
  exists new. unfold generate_blaze_pose_frames_from_sequence.
  cbn [BlazePoseSequence.frames BlazePoseSequence.sequence_data
       BlazePoseSequence.joint_positions].
  rewrite Hloop. split_and!; [done| |done].
  symmetry. by eapply Forall2_length.
Qed.

End GenerationProperties.

Lemma generate_frames_of_complete_sequence_witness :
  ∃ frames,
    generate_blaze_pose_frames_from_sequence (plumbline_returning ([], []))
      (BlazePoseSequence.mk sequence_joint_positions
         sample_sequence_complete [])
    = (BlazePoseSequence.mk sequence_joint_positions
         sample_sequence_complete frames, inr tt) ∧
    length frames = length sample_sequence_complete ∧
    Forall2 (λ frame_data bpf,
               BlazePoseFrame_init (plumbline_returning ([], [])) frame_data
               = inr bpf)
            sample_sequence_complete frames.
Proof.
  apply (generate_frames_of_complete_sequence (plumbline_returning ([], []))
           sample_sequence_complete
           (BlazePoseSequence.mk sequence_joint_positions
              sample_sequence_complete [])).
  - reflexivity.
  - repeat constructor.
  - intros frame. by exists ([], []).
Defined.

(** C6, counterexample: the sequence is constructed, its second entry
    names all 33 joints but [left_knee] has no [z_normalized]; the
    generation step appends the frame of the first entry and then raises,
    from the landmark validation of the second frame. *)
Lemma generation_raises_on_validated_sequence :
  BlazePoseSequence_init sample_sequence_knee
  = inr (BlazePoseSequence.mk sequence_joint_positions sample_sequence_knee [])
  ∧ ∀ get_plumbline_vector,
      generate_blaze_pose_frames_from_sequence get_plumbline_vector
        (BlazePoseSequence.mk sequence_joint_positions sample_sequence_knee [])
      = (BlazePoseSequence.mk sequence_joint_positions sample_sequence_knee
           [frame_before_joints (PyInt 2) (PyDict ∅) sample_image_dimensions
              (PyInt 1677107027968938000) (PyStr "mediapipe")],
         inl (BlazePoseFrameError
                "z_normalized missing from left_knee position data")).
Proof. split; [reflexivity|]. intros get_plumbline_vector. reflexivity. Qed.

(** * Further properties of the parser *)

(** ** Joint construction *)

Lemma Joint_init_inr_intro name (joint_data : gmap string pyval)
    x y z xn yn zn dims :
  (∀ key, is_Some (joint_data !! key) → key ∈ Joint.required_keys) →
  joint_data !! "image_dimensions" = Some dims →
  joint_data !! "x" = Some x →
  joint_data !! "y" = Some y →
  joint_data !! "z" = Some z →
  joint_data !! "x_normalized" = Some xn →
  joint_data !! "y_normalized" = Some yn →
  joint_data !! "z_normalized" = Some zn →
  Joint_init name joint_data = inr (Joint.mk name x y z xn yn zn dims).
Proof.
  intros Hkeys Hd Hx Hy Hz Hxn Hyn Hzn. unfold Joint_init.
  apply Joint_guard_true in Hkeys. rewrite Hkeys. cbn [negb].
  rewrite (dict_getitem_Some _ _ _ Hd), bind_inr.
  rewrite (dict_getitem_Some _ _ _ Hx), bind_inr.
  rewrite (dict_getitem_Some _ _ _ Hy), bind_inr.
  rewrite (dict_getitem_Some _ _ _ Hz), bind_inr.
  rewrite (dict_getitem_Some _ _ _ Hxn), bind_inr.
  rewrite (dict_getitem_Some _ _ _ Hyn), bind_inr.
  rewrite (dict_getitem_Some _ _ _ Hzn), bind_inr.
  reflexivity.
Qed.

Lemma dict_getitem_inr (d : gmap string pyval) key v :
  dict_getitem d key = inr v ↔ d !! key = Some v.
Proof.
  unfold dict_getitem. destruct (d !! key) as [w|]; split; intros H;
    first [by injection H as -> | done].
Qed.

Lemma Joint_init_inr_elim name (joint_data : gmap string pyval) j :
  Joint_init name joint_data = inr j →
  (∀ key, is_Some (joint_data !! key) → key ∈ Joint.required_keys) ∧
  Joint.name j = name ∧
  joint_data !! "image_dimensions" = Some (Joint.image_dimensions j) ∧
  joint_data !! "x" = Some (Joint.x j) ∧
  joint_data !! "y" = Some (Joint.y j) ∧
  joint_data !! "z" = Some (Joint.z j) ∧
  joint_data !! "x_normalized" = Some (Joint.x_normalized j) ∧
  joint_data !! "y_normalized" = Some (Joint.y_normalized j) ∧
  joint_data !! "z_normalized" = Some (Joint.z_normalized j).
Proof.
  unfold Joint_init.
  destruct (forallb _ _) eqn:Hguard; cbn [negb]; [|done].
  pose proof (proj1 (Joint_guard_true _) Hguard) as Hkeys.
  destruct (dict_getitem joint_data "image_dimensions") as [e|dims] eqn:Hd;
    [done|]. rewrite bind_inr.
  destruct (dict_getitem joint_data "x") as [e|x] eqn:Hx; [done|].
  rewrite bind_inr.
  destruct (dict_getitem joint_data "y") as [e|y] eqn:Hy; [done|].
  rewrite bind_inr.
  destruct (dict_getitem joint_data "z") as [e|z] eqn:Hz; [done|].
  rewrite bind_inr.
  destruct (dict_getitem joint_data "x_normalized") as [e|xn] eqn:Hxn;
    [done|]. rewrite bind_inr.
  destruct (dict_getitem joint_data "y_normalized") as [e|yn] eqn:Hyn;
    [done|]. rewrite bind_inr.
  destruct (dict_getitem joint_data "z_normalized") as [e|zn] eqn:Hzn;
    [done|]. rewrite bind_inr.
  apply dict_getitem_inr in Hd, Hx, Hy, Hz, Hxn, Hyn, Hzn.
  intros [= <-]. by cbn.
Qed.

(** X1: [Joint] returns exactly on the records whose keys are the seven
    required ones, no fewer and no more, and the attributes of the joint
    are then the name and the values of the record, unchanged. *)
Theorem Joint_init_returns_iff (name : string)
    (joint_data : gmap string pyval) (j : Joint.t) :
  Joint_init name joint_data = inr j
  ↔ (∀ key, is_Some (joint_data !! key) ↔ key ∈ Joint.required_keys) ∧
    Joint.name j = name ∧
    joint_data !! "image_dimensions" = Some (Joint.image_dimensions j) ∧
    joint_data !! "x" = Some (Joint.x j) ∧
    joint_data !! "y" = Some (Joint.y j) ∧
    joint_data !! "z" = Some (Joint.z j) ∧
    joint_data !! "x_normalized" = Some (Joint.x_normalized j) ∧
    joint_data !! "y_normalized" = Some (Joint.y_normalized j) ∧
    joint_data !! "z_normalized" = Some (Joint.z_normalized j).
Proof.
  split.
  - intros H. apply Joint_init_inr_elim in H
      as (Hkeys & Hname & Hd & Hx & Hy & Hz & Hxn & Hyn & Hzn).
    split_and!; try done. intros key. split; [apply Hkeys|].
    intros Hkey. apply list_elem_of_In in Hkey. simpl in Hkey.
    destruct Hkey as [<-|[<-|[<-|[<-|[<-|[<-|[<-|[]]]]]]]]; eauto.
  - intros (Hkeys & Hname & Hd & Hx & Hy & Hz & Hxn & Hyn & Hzn).
    destruct j as [n x y z xn yn zn dims]. cbn in *. subst n.
    apply Joint_init_inr_intro; try done. intros key. apply Hkeys.
Qed.

(** ** Landmarks of a frame, continued *)

(** One turn of the loop of [set_joint_positions]. *)
Lemma set_joint_positions_loop_cons self joints_raw joint names acc :
  BlazePoseFrame.joint_positions_raw self = Some joints_raw →
  set_joint_positions_loop self (joint :: names) acc
  = (j ← landmark_of joints_raw (BlazePoseFrame.image_dimensions self) joint;
     set_joint_positions_loop self names (<[joint := j]> acc)).
Proof.
  intros Hraw. cbn [set_joint_positions_loop]. rewrite Hraw, bind_ret.
  unfold landmark_of.
  repeat match goal with
  | |- context [raw_coordinate ?r ?j ?k ≫= _] =>
      destruct (raw_coordinate r j k) as [e|?];
      [by rewrite !bind_inl|rewrite !bind_inr]
  end.
  cbv zeta. by rewrite Joint_init_of_literal, bind_ret, !bind_inr.
Qed.

Lemma raw_coordinate_inr joints_raw joint key v :
  raw_coordinate joints_raw joint key = inr v →
  ∃ d r, joints_raw = PyDict d ∧ d !! joint = Some (PyDict r) ∧
         r !! key = Some v.
Proof.
  unfold raw_coordinate. destruct joints_raw as [| | | |d]; try done.
  cbn [py_getitem].
  destruct (dict_getitem d joint) as [e|record] eqn:Hjoint; [done|].
  rewrite bind_inr. apply dict_getitem_inr in Hjoint.
  destruct record as [| | | |r]; try done. cbn [py_getitem].
  intros Hkey. apply dict_getitem_inr in Hkey. by exists d, r.
Qed.

(** What the loop body builds, read back from the raw record. *)
Lemma landmark_of_inr joints_raw dims joint j :
  landmark_of joints_raw dims joint = inr j →
  ∃ d r, joints_raw = PyDict d ∧ d !! joint = Some (PyDict r) ∧
         Joint.name j = joint ∧ Joint.image_dimensions j = dims ∧
         r !! "x" = Some (Joint.x j) ∧
         r !! "y" = Some (Joint.y j) ∧
         r !! "z" = Some (Joint.z j) ∧
         r !! "x_normalized" = Some (Joint.x_normalized j) ∧
         r !! "y_normalized" = Some (Joint.y_normalized j) ∧
         r !! "z_normalized" = Some (Joint.z_normalized j).
Proof.
  unfold landmark_of.
  destruct (raw_coordinate joints_raw joint "x") as [e|x] eqn:Hx; [done|].
  rewrite bind_inr.
  destruct (raw_coordinate joints_raw joint "y") as [e|y] eqn:Hy; [done|].
  rewrite bind_inr.
  destruct (raw_coordinate joints_raw joint "z") as [e|z] eqn:Hz; [done|].
  rewrite bind_inr.
  destruct (raw_coordinate joints_raw joint "x_normalized") as [e|xn] eqn:Hxn;
    [done|]. rewrite bind_inr.
  destruct (raw_coordinate joints_raw joint "y_normalized") as [e|yn] eqn:Hyn;
    [done|]. rewrite bind_inr.
  destruct (raw_coordinate joints_raw joint "z_normalized") as [e|zn] eqn:Hzn;
    [done|]. rewrite bind_inr.
  intros [= <-].
  apply raw_coordinate_inr in Hx as (d & r & -> & Hr & Hx).
  apply raw_coordinate_inr in Hy as (d1 & r1 & [= <-] & Hr1 & Hy).
  apply raw_coordinate_inr in Hz as (d2 & r2 & [= <-] & Hr2 & Hz).
  apply raw_coordinate_inr in Hxn as (d3 & r3 & [= <-] & Hr3 & Hxn).
  apply raw_coordinate_inr in Hyn as (d4 & r4 & [= <-] & Hr4 & Hyn).
  apply raw_coordinate_inr in Hzn as (d5 & r5 & [= <-] & Hr5 & Hzn).
  rewrite Hr in Hr1, Hr2, Hr3, Hr4, Hr5.
  injection Hr1 as <-. injection Hr2 as <-. injection Hr3 as <-.
  injection Hr4 as <-. injection Hr5 as <-.
  exists d, r. by split_and!.
Qed.

(** When the loop returns, every name it went through maps to the landmark
    of its raw record, and the other names are as they were. *)
Lemma set_joint_positions_loop_inr self joints_raw names :
  BlazePoseFrame.joint_positions_raw self = Some joints_raw →
  ∀ acc joints,
    set_joint_positions_loop self names acc = inr joints →
    (∀ joint, joint ∈ names →
       ∃ j, landmark_of joints_raw (BlazePoseFrame.image_dimensions self) joint
            = inr j ∧ joints !! joint = Some j) ∧
    (∀ joint, joint ∉ names → joints !! joint = acc !! joint).
Proof.
  intros Hraw. induction names as [|name names IH]; intros acc joints.
  - cbn [set_joint_positions_loop]. intros [= <-]. split; [|done].
    intros joint Hjoint. by apply elem_of_nil in Hjoint.
  - rewrite (set_joint_positions_loop_cons _ _ _ _ _ Hraw).
    destruct (landmark_of _ _ name) as [e|j] eqn:Hj; [done|].
    rewrite bind_inr. intros Hloop.
    destruct (IH _ _ Hloop) as [Hin Hout]. split.
    + intros joint Hjoint. destruct (decide (joint ∈ names)) as [Hn|Hn];
        [by apply Hin|].
      apply elem_of_cons in Hjoint as [->|Hjoint]; [|done].
      exists j. split; [done|]. by rewrite (Hout _ Hn), lookup_insert_eq.
    + intros joint Hjoint. apply not_elem_of_cons in Hjoint as [Hne Hn].
      by rewrite (Hout _ Hn), lookup_insert_ne.
Qed.

Lemma py_getitem_raises v key e :
  py_getitem v key = inl e →
  (∃ k, e = KeyError k) ∨ (∃ msg, e = TypeError msg).
Proof.
  destruct v as [| | | |d]; cbn [py_getitem]; try (intros [= <-]; eauto).
  unfold dict_getitem. destruct (d !! key); [done|]. intros [= <-]. eauto.
Qed.

Lemma raw_coordinate_raises joints_raw joint key e :
  raw_coordinate joints_raw joint key = inl e →
  (∃ k, e = KeyError k) ∨ (∃ msg, e = TypeError msg).
Proof.
  unfold raw_coordinate.
  destruct (py_getitem joints_raw joint) as [e'|record] eqn:H.
  - rewrite bind_inl. intros [= <-]. by eapply py_getitem_raises.
  - rewrite bind_inr. apply py_getitem_raises.
Qed.

Lemma landmark_of_raises joints_raw dims joint e :
  landmark_of joints_raw dims joint = inl e →
  (∃ k, e = KeyError k) ∨ (∃ msg, e = TypeError msg).
Proof.
  unfold landmark_of.
  repeat match goal with
  | |- context [raw_coordinate ?r ?j ?k ≫= _] =>
      let H := fresh "H" in
      destruct (raw_coordinate r j k) as [?|?] eqn:H;
      [rewrite bind_inl; intros [= <-]; by eapply raw_coordinate_raises
      |rewrite bind_inr]
  end.
  done.
Qed.

(** The loop raises nothing but the errors of reading the raw records. *)
Lemma set_joint_positions_loop_raises self names acc e :
  set_joint_positions_loop self names acc = inl e →
  e = AttributeError "joint_positions_raw"
  ∨ (∃ key, e = KeyError key) ∨ (∃ msg, e = TypeError msg).
Proof.
  destruct (BlazePoseFrame.joint_positions_raw self) as [joints_raw|] eqn:Hraw.
  - revert acc. induction names as [|name names IH]; intros acc; [done|].
    rewrite (set_joint_positions_loop_cons _ _ _ _ _ Hraw).
    destruct (landmark_of _ _ name) as [e'|j] eqn:Hj.
    + rewrite bind_inl. intros [= <-]. right. by eapply landmark_of_raises.
    + rewrite bind_inr. apply IH.
  - destruct names as [|name names]; [done|].
    cbn [set_joint_positions_loop]. rewrite Hraw, bind_raise.
    intros [= <-]. by left.
Qed.

(** X2: [set_joint_positions] never raises [JointError]. The dictionary
    it hands to [Joint] always has the seven required keys and no other, so
    the guard of [Joint] cannot fire; it returns, or raises
    [BlazePoseFrameError] (no landmarks), or an error of reading the raw
    records. *)
Theorem set_joint_positions_outcomes (self : BlazePoseFrame.t) :
  (∃ joints, set_joint_positions self = inr joints)
  ∨ set_joint_positions self
    = inl (BlazePoseFrameError "There are no joint positions to set")
  ∨ set_joint_positions self = inl (AttributeError "joint_positions_raw")
  ∨ (∃ key, set_joint_positions self = inl (KeyError key))
  ∨ (∃ msg, set_joint_positions self = inl (TypeError msg)).
Proof.
  unfold set_joint_positions.
  destruct (BlazePoseFrame.has_joint_positions self); cbn [negb];
    [|by right; left].
  destruct (set_joint_positions_loop self _ ∅) as [e|joints] eqn:Hloop;
    [|by left; exists joints].
  apply set_joint_positions_loop_raises in Hloop
    as [->|[[key ->]|[msg ->]]]; eauto 6.
Qed.

Section BuiltFrames.

Variable get_plumbline_vector :
  BlazePoseFrame.t → result (list point * list point).

(** Every way the constructor can return. *)
Lemma BlazePoseFrame_init_inr (frame_data : gmap string pyval) self :
  BlazePoseFrame_init get_plumbline_vector frame_data = inr self →
  ∃ sequence_id sequence_source frame_number image_dimensions joint_positions,
    frame_data !! "sequence_id" = Some sequence_id ∧
    frame_data !! "sequence_source" = Some sequence_source ∧
    frame_data !! "frame_number" = Some frame_number ∧
    frame_data !! "image_dimensions" = Some image_dimensions ∧
    frame_data !! "joint_positions" = Some joint_positions ∧
    let self0 := frame_before_joints frame_number joint_positions
                   image_dimensions sequence_id sequence_source in
    (truthy joint_positions = false ∧ self = self0)
    ∨ (truthy joint_positions = true ∧
       validate_joint_names frame_joint_position_names joint_positions
       = inr tt ∧
       ∃ joints v,
         set_joint_positions_loop
           (BlazePoseFrame.set_joint_positions_raw joint_positions self0)
           frame_joint_position_names ∅ = inr joints ∧
         get_plumbline_vector
           (BlazePoseFrame.set_joints joints
              (BlazePoseFrame.set_joint_positions_raw joint_positions self0))
         = inr v ∧
         self = BlazePoseFrame.set_angles None
                  (BlazePoseFrame.set_plumb_line_vector v
                     (BlazePoseFrame.set_joints joints
                        (BlazePoseFrame.set_joint_positions_raw
                           joint_positions self0)))).
Proof.
  intros Hinit.
  destruct (frame_data !! "frame_number") as [v3|] eqn:H3;
    [|by unfold BlazePoseFrame_init in Hinit;
         rewrite (dict_getitem_None _ _ H3) in Hinit].
  destruct (frame_data !! "joint_positions") as [v5|] eqn:H5;
    [|by unfold BlazePoseFrame_init in Hinit;
         rewrite (dict_getitem_Some _ _ _ H3), bind_inr,
                 (dict_getitem_None _ _ H5) in Hinit].
  destruct (frame_data !! "image_dimensions") as [v4|] eqn:H4;
    [|by unfold BlazePoseFrame_init in Hinit;
         rewrite (dict_getitem_Some _ _ _ H3), bind_inr,
                 (dict_getitem_Some _ _ _ H5), bind_inr,
                 (dict_getitem_None _ _ H4) in Hinit].
  destruct (frame_data !! "sequence_id") as [v1|] eqn:H1;
    [|by unfold BlazePoseFrame_init in Hinit;
         rewrite (dict_getitem_Some _ _ _ H3), bind_inr,
                 (dict_getitem_Some _ _ _ H5), bind_inr,
                 (dict_getitem_Some _ _ _ H4), bind_inr,
                 (dict_getitem_None _ _ H1) in Hinit].
  destruct (frame_data !! "sequence_source") as [v2|] eqn:H2;
    [|by unfold BlazePoseFrame_init in Hinit;
         rewrite (dict_getitem_Some _ _ _ H3), bind_inr,
                 (dict_getitem_Some _ _ _ H5), bind_inr,
                 (dict_getitem_Some _ _ _ H4), bind_inr,
                 (dict_getitem_Some _ _ _ H1), bind_inr,
                 (dict_getitem_None _ _ H2) in Hinit].
  exists v1, v2, v3, v4, v5. split_and!; try done.
  rewrite (BlazePoseFrame_init_read _ _ _ _ _ _ _ H1 H2 H3 H4 H5) in Hinit.
  cbv zeta in *.
  destruct (truthy v5) eqn:Htruthy; [right|left; by injection Hinit as <-].
  split; [done|]. unfold validate_joint_position_data in Hinit.
  cbn [frame_before_joints BlazePoseFrame.joint_position_names] in Hinit.
  destruct (validate_joint_names _ _) as [e|[]]; [done|].
  rewrite bind_inr, bind_ret in Hinit. split; [done|].
  unfold set_joint_positions, frame_before_joints in *.
  cbn [BlazePoseFrame.set_joint_positions_raw
       BlazePoseFrame.has_joint_positions
       BlazePoseFrame.joint_position_names] in Hinit.
  rewrite Htruthy in *. cbn [negb] in Hinit.
  destruct (set_joint_positions_loop _ _ ∅) as [e|joints]; [done|].
  rewrite bind_inr in Hinit. unfold generate_angle_measurements in Hinit.
  cbn [BlazePoseFrame.set_joints BlazePoseFrame.has_joint_positions negb]
    in Hinit.
  destruct (get_plumbline_vector _) as [e|v] eqn:Hv; [done|].
  cbn in Hinit. injection Hinit as <-. by exists joints, v.
Qed.

End BuiltFrames.

Lemma validate_joint_names_positions names joint_positions :
  validate_joint_names names joint_positions = inr tt →
  validate_positions names joint_positions = inr tt.
Proof.
  induction names as [|joint names IH];
    cbn [validate_joint_names validate_positions]; [done|].
  destruct (py_contains joint joint_positions) as [e|[|]]; try done.
  rewrite !bind_inr. cbn [negb].
  destruct (validate_joint_keys _ _ _) as [e|[]]; [done|].
  by rewrite bind_inr.
Qed.

Section BuiltFrameProperties.

Variable get_plumbline_vector :
  BlazePoseFrame.t → result (list point * list point).

(** X3: a frame that was built from landmarks holds exactly one landmark
    for each name of the vocabulary; the landmark carries its name, the
    image dimensions of the frame and the six coordinates of the raw
    record, unchanged. In particular the raw landmarks were a dictionary of
    dictionaries. *)
Theorem BlazePoseFrame_init_landmarks (frame_data : gmap string pyval)
    (self : BlazePoseFrame.t) (joint_positions : pyval) :
  BlazePoseFrame_init get_plumbline_vector frame_data = inr self →
  frame_data !! "joint_positions" = Some joint_positions →
  truthy joint_positions = true →
  ∃ d, joint_positions = PyDict d ∧
    (∀ joint, is_Some (BlazePoseFrame.joints self !! joint)
              ↔ joint ∈ frame_joint_position_names) ∧
    ∀ joint, joint ∈ frame_joint_position_names →
      ∃ r j,
        d !! joint = Some (PyDict r) ∧
        BlazePoseFrame.joints self !! joint = Some j ∧
        Joint.name j = joint ∧
        Joint.image_dimensions j = BlazePoseFrame.image_dimensions self ∧
        r !! "x" = Some (Joint.x j) ∧
        r !! "y" = Some (Joint.y j) ∧
        r !! "z" = Some (Joint.z j) ∧
        r !! "x_normalized" = Some (Joint.x_normalized j) ∧
        r !! "y_normalized" = Some (Joint.y_normalized j) ∧
        r !! "z_normalized" = Some (Joint.z_normalized j).
Proof.
  intros Hinit Hjp Htruthy.
  apply BlazePoseFrame_init_inr in Hinit
    as (v1 & v2 & v3 & v4 & v5 & _ & _ & _ & _ & H5 & Hself).
  rewrite Hjp in H5. injection H5 as <-. cbv zeta in Hself.
  destruct Hself as [[Hfalse _]|(_ & _ & joints & v & Hloop & _ & ->)];
    [congruence|].
  eapply set_joint_positions_loop_inr in Hloop as [Hin Hout]; [|reflexivity].
  cbn [BlazePoseFrame.set_joint_positions_raw BlazePoseFrame.image_dimensions
       frame_before_joints] in Hin.
  destruct (Hin "nose") as (j0 & Hj0 & _); [in_literal|].
  apply landmark_of_inr in Hj0 as (d & _ & -> & _).
  exists d. split; [done|]. cbn. split.
  - intros joint. split.
    + intros Hsome. destruct (decide (joint ∈ frame_joint_position_names))
        as [|Hn]; [done|].
      rewrite (Hout _ Hn), lookup_empty in Hsome. by destruct Hsome.
    + intros Hjoint. destruct (Hin _ Hjoint) as (j & _ & ->). eauto.
  - intros joint Hjoint. destruct (Hin _ Hjoint) as (j & Hj & Hlookup).
    apply landmark_of_inr in Hj
      as (d' & r & [= <-] & Hr & Hname & Hdims & Hx & Hy & Hz & Hxn & Hyn & Hzn).
    exists r, j. by split_and!.
Qed.

(** X4: a frame that was built carries the four metadata values of its
    entry unchanged, and [has_joint_positions] is the truth value of the
    entry's [joint_positions]. *)
Theorem BlazePoseFrame_init_metadata (frame_data : gmap string pyval)
    (self : BlazePoseFrame.t) :
  BlazePoseFrame_init get_plumbline_vector frame_data = inr self →
  frame_data !! "frame_number" = Some (BlazePoseFrame.frame_number self) ∧
  frame_data !! "image_dimensions"
  = Some (BlazePoseFrame.image_dimensions self) ∧
  frame_data !! "sequence_id" = Some (BlazePoseFrame.sequence_id self) ∧
  frame_data !! "sequence_source"
  = Some (BlazePoseFrame.sequence_source self) ∧
  BlazePoseFrame.joint_position_names self = frame_joint_position_names ∧
  ∃ joint_positions,
    frame_data !! "joint_positions" = Some joint_positions ∧
    BlazePoseFrame.has_joint_positions self = truthy joint_positions.
Proof.
  intros Hinit.
  apply BlazePoseFrame_init_inr in Hinit
    as (v1 & v2 & v3 & v4 & v5 & H1 & H2 & H3 & H4 & H5 & Hself).
  cbv zeta in Hself.
  destruct Hself as [[_ ->]|(_ & _ & joints & v & _ & _ & ->)];
    cbn; split_and!; try done; by exists v5.
Qed.

(** X5: a frame built from an entry whose [joint_positions] is false (an
    empty dictionary, but also [None], [0] or the empty string) has no
    landmark and refuses every geometric query: [set_joint_positions] and
    [generate_angle_measurements] raise [BlazePoseFrameError], and
    [get_vector] raises [KeyError] on its first joint name. *)
Theorem undetected_frame_refuses_geometry (frame_data : gmap string pyval)
    (self : BlazePoseFrame.t) (joint_positions : pyval) :
  BlazePoseFrame_init get_plumbline_vector frame_data = inr self →
  frame_data !! "joint_positions" = Some joint_positions →
  truthy joint_positions = false →
  BlazePoseFrame.joints self = ∅ ∧
  BlazePoseFrame.angles self = Some ∅ ∧
  set_joint_positions self
  = inl (BlazePoseFrameError "There are no joint positions to set") ∧
  generate_angle_measurements get_plumbline_vector self
  = inl (BlazePoseFrameError
           "There are no joint data to generate angles from") ∧
  ∀ joint_name1 joint_name2,
    get_vector self joint_name1 joint_name2 = inl (KeyError joint_name1).
Proof.
  intros Hinit Hjp Hfalse.
  apply BlazePoseFrame_init_inr in Hinit
    as (v1 & v2 & v3 & v4 & v5 & _ & _ & _ & _ & H5 & Hself).
  rewrite Hjp in H5. injection H5 as <-. cbv zeta in Hself.
  destruct Hself as [[_ ->]|(Htrue & _)]; [|congruence].
  unfold set_joint_positions, generate_angle_measurements, get_vector,
    joint_attr, joint_of.
  cbn [frame_before_joints BlazePoseFrame.joints BlazePoseFrame.angles
       BlazePoseFrame.has_joint_positions].
  rewrite Hfalse. by split_and!.
Qed.

(** X6: every entry from which a frame can be built passes the validation
    of the sequence: the constructor of the frame reads the five top-level
    keys and, when there are landmarks, looks every vocabulary name up. *)
Theorem buildable_entry_is_valid (frame_data : gmap string pyval)
    (self : BlazePoseFrame.t) :
  BlazePoseFrame_init get_plumbline_vector frame_data = inr self →
  validate_pose_schema sequence_joint_positions frame_data = inr true.
Proof.
  intros Hinit.
  apply BlazePoseFrame_init_inr in Hinit
    as (v1 & v2 & v3 & v4 & v5 & H1 & H2 & H3 & H4 & H5 & Hself).
  cbv zeta in Hself. unfold validate_pose_schema.
  assert (validate_required_keys required_keys frame_data = inr tt) as ->.
  { apply validate_required_keys_inr. intros key Hkey.
    apply list_elem_of_In in Hkey. simpl in Hkey.
    destruct Hkey as [<-|[<-|[<-|[<-|[<-|[]]]]]]; eauto. }
  rewrite bind_inr, (dict_getitem_Some _ _ _ H5), bind_inr.
  destruct Hself as [[-> _]|(-> & Hvalid & _)]; cbn [negb]; [done|].
  apply validate_joint_names_positions in Hvalid.
  rewrite <- vocabularies_agree in Hvalid. by rewrite Hvalid.
Qed.

End BuiltFrameProperties.

Lemma BlazePoseFrame_init_landmarks_witness :
  ∃ self d,
    BlazePoseFrame_init (plumbline_returning ([], [])) sample_detected
    = inr self ∧
    PyDict (sample_joint_positions (PyDict sample_coordinates)) = PyDict d ∧
    (∀ joint, is_Some (BlazePoseFrame.joints self !! joint)
              ↔ joint ∈ frame_joint_position_names) ∧
    ∀ joint, joint ∈ frame_joint_position_names →
      ∃ r j,
        d !! joint = Some (PyDict r) ∧
        BlazePoseFrame.joints self !! joint = Some j ∧
        Joint.name j = joint ∧
        Joint.image_dimensions j = BlazePoseFrame.image_dimensions self ∧
        r !! "x" = Some (Joint.x j) ∧
        r !! "y" = Some (Joint.y j) ∧
        r !! "z" = Some (Joint.z j) ∧
        r !! "x_normalized" = Some (Joint.x_normalized j) ∧
        r !! "y_normalized" = Some (Joint.y_normalized j) ∧
        r !! "z_normalized" = Some (Joint.z_normalized j).
Proof.
  destruct (BlazePoseFrame_init_complete (plumbline_returning ([], []))
              sample_detected
              (PyDict (sample_joint_positions (PyDict sample_coordinates))))
    as (self & Hself & _).
  - apply sample_frame_data_keys.
  - reflexivity.
  - reflexivity.
  - intros frame. by exists ([], []).
  - destruct (BlazePoseFrame_init_landmarks (plumbline_returning ([], []))
                sample_detected self
                (PyDict (sample_joint_positions (PyDict sample_coordinates)))
                Hself eq_refl eq_refl) as (d & Hd & Hdom & Hall).
    exists self, d. exact (conj Hself (conj Hd (conj Hdom Hall))).
Defined.

Lemma BlazePoseFrame_init_metadata_witness :
  let self := frame_before_joints (PyInt 2) (PyDict ∅) sample_image_dimensions
                (PyInt 1677107027968938000) (PyStr "mediapipe") in
  sample_undetected !! "frame_number"
  = Some (BlazePoseFrame.frame_number self) ∧
  sample_undetected !! "image_dimensions"
  = Some (BlazePoseFrame.image_dimensions self) ∧
  sample_undetected !! "sequence_id"
  = Some (BlazePoseFrame.sequence_id self) ∧
  sample_undetected !! "sequence_source"
  = Some (BlazePoseFrame.sequence_source self) ∧
  BlazePoseFrame.joint_position_names self = frame_joint_position_names ∧
  ∃ joint_positions,
    sample_undetected !! "joint_positions" = Some joint_positions ∧
    BlazePoseFrame.has_joint_positions self = truthy joint_positions.
Proof.
  apply (BlazePoseFrame_init_metadata (plumbline_returning ([], []))
           sample_undetected).
  reflexivity.
Defined.

Lemma undetected_frame_refuses_geometry_witness :
  let self := frame_before_joints (PyInt 4) PyNone sample_image_dimensions
                (PyInt 1677107027968938000) (PyStr "mediapipe") in
  BlazePoseFrame.joints self = ∅ ∧
  BlazePoseFrame.angles self = Some ∅ ∧
  set_joint_positions self
  = inl (BlazePoseFrameError "There are no joint positions to set") ∧
  generate_angle_measurements (plumbline_returning ([], [])) self
  = inl (BlazePoseFrameError
           "There are no joint data to generate angles from") ∧
  ∀ joint_name1 joint_name2,
    get_vector self joint_name1 joint_name2 = inl (KeyError joint_name1).
Proof.
  apply (undetected_frame_refuses_geometry (plumbline_returning ([], []))
           sample_null _ PyNone); reflexivity.
Defined.

Lemma buildable_entry_is_valid_witness :
  validate_pose_schema sequence_joint_positions sample_null = inr true.
Proof.
  apply (buildable_entry_is_valid (plumbline_returning ([], [])) sample_null
           (frame_before_joints (PyInt 4) PyNone sample_image_dimensions
              (PyInt 1677107027968938000) (PyStr "mediapipe"))).
  reflexivity.
Defined.

(** ** Sequence validation, continued *)

Lemma validate_required_keys_first_missing pre key post
    (frame_data : gmap string pyval) :
  (∀ k, k ∈ pre → is_Some (frame_data !! k)) →
  frame_data !! key = None →
  validate_required_keys (pre ++ key :: post) frame_data
  = inl (BlazePoseSequenceError
           ("Validation error - " +:+ key +:+ " is missing from frame data")).
Proof.
  intros Hpre Hkey. induction pre as [|k pre IH];
    cbn [app validate_required_keys].
  - unfold dict_contains. by rewrite Hkey.
  - assert (dict_contains k frame_data = true) as ->
      by (apply dict_contains_true, Hpre, list_elem_of_here).
    cbn [negb]. apply IH. intros k' Hk'. apply Hpre.
    by apply list_elem_of_further.
Qed.

Lemma validate_positions_inr names joint_positions :
  validate_positions names joint_positions = inr tt
  ↔ ∀ pos, pos ∈ names → py_contains pos joint_positions = inr true.
Proof.
  induction names as [|pos names IH]; cbn [validate_positions].
  - split; [|done]. intros _ pos Hpos. by apply elem_of_nil in Hpos.
  - destruct (py_contains pos joint_positions) as [e|[|]] eqn:Hpos.
    + rewrite bind_inl. split; [done|]. intros H.
      specialize (H pos (list_elem_of_here _ _)). congruence.
    + rewrite bind_inr. cbn [negb]. rewrite IH. split.
      * intros H p Hp. apply elem_of_cons in Hp as [->|Hp]; auto.
      * intros H p Hp. apply H. by apply list_elem_of_further.
    + rewrite bind_inr. cbn [negb]. split; [done|]. intros H.
      specialize (H pos (list_elem_of_here _ _)). congruence.
Qed.

Lemma validate_positions_first_missing pre pos post (d : gmap string pyval) :
  (∀ p, p ∈ pre → is_Some (d !! p)) →
  d !! pos = None →
  validate_positions (pre ++ pos :: post) (PyDict d)
  = inl (BlazePoseSequenceError
           ("Validation error - " +:+ pos +:+
            " is missing from joint position data")).
Proof.
  intros Hpre Hpos. induction pre as [|p pre IH];
    cbn [app validate_positions py_contains]; rewrite bind_ret.
  - unfold dict_contains. by rewrite Hpos.
  - assert (dict_contains p d = true) as ->
      by (apply dict_contains_true, Hpre, list_elem_of_here).
    cbn [negb]. apply IH. intros p' Hp'. apply Hpre.
    by apply list_elem_of_further.
Qed.

(** X7: [validate_pose_schema] returns [True] exactly when the entry has
    the five top-level keys and its [joint_positions] is false or contains
    every name of the vocabulary; what the joints map to is not looked at. *)
Theorem validate_pose_schema_returns_iff (names : list string)
    (frame_data : gmap string pyval) :
  validate_pose_schema names frame_data = inr true
  ↔ (∀ key, key ∈ required_keys → is_Some (frame_data !! key)) ∧
    ∃ joint_positions,
      frame_data !! "joint_positions" = Some joint_positions ∧
      (truthy joint_positions = false
       ∨ ∀ pos, pos ∈ names → py_contains pos joint_positions = inr true).
Proof.
  unfold validate_pose_schema. split.
  - destruct (validate_required_keys _ _) as [e|[]] eqn:Hkeys; [done|].
    pose proof (proj1 (validate_required_keys_inr _ _) Hkeys) as Hkeys'.
    rewrite bind_inr.
    destruct (dict_getitem _ _) as [e|v] eqn:Hjp; [done|].
    apply dict_getitem_inr in Hjp. rewrite bind_inr. intros H.
    split; [done|]. exists v. split; [done|].
    destruct (truthy v); cbn [negb] in H; [right|by left].
    destruct (validate_positions names v) as [e|[]] eqn:Hpos; [done|].
    by apply validate_positions_inr.
  - intros (Hkeys & v & Hjp & Hv).
    rewrite (proj2 (validate_required_keys_inr _ _) Hkeys), bind_inr.
    rewrite (dict_getitem_Some _ _ _ Hjp), bind_inr.
    destruct (truthy v) eqn:Htruthy; cbn [negb]; [|done].
    destruct Hv as [Hv|Hv]; [done|].
    by rewrite (proj2 (validate_positions_inr _ _) Hv).
Qed.

(** X8: when a top-level key is absent, [validate_pose_schema] raises a
    [BlazePoseSequenceError] whose message names the first absent key, in
    the order sequence_id, sequence_source, frame_number, image_dimensions,
    joint_positions. *)
Theorem validate_pose_schema_names_missing_key (names : list string)
    (frame_data : gmap string pyval) (pre : list string) (key : string)
    (post : list string) :
  required_keys = pre ++ key :: post →
  (∀ k, k ∈ pre → is_Some (frame_data !! k)) →
  frame_data !! key = None →
  validate_pose_schema names frame_data
  = inl (BlazePoseSequenceError
           ("Validation error - " +:+ key +:+ " is missing from frame data")).
Proof.
  intros Hsplit Hpre Hkey. unfold validate_pose_schema. rewrite Hsplit.
  by rewrite (validate_required_keys_first_missing _ _ _ _ Hpre Hkey).
Qed.

Lemma validate_pose_schema_names_missing_key_witness :
  validate_pose_schema sequence_joint_positions
    (delete "frame_number" sample_undetected)
  = inl (BlazePoseSequenceError
           ("Validation error - " +:+ "frame_number" +:+
            " is missing from frame data")).
Proof.
  apply (validate_pose_schema_names_missing_key sequence_joint_positions
           (delete "frame_number" sample_undetected)
           ["sequence_id"; "sequence_source"] "frame_number"
           ["image_dimensions"; "joint_positions"]).
  - reflexivity.
  - intros k Hk. apply dict_contains_true.
    apply list_elem_of_In in Hk. simpl in Hk.
    destruct Hk as [<-|[<-|[]]]; reflexivity.
  - apply lookup_delete_eq.
Defined.

(** X9: when the landmarks are a non-empty dictionary that lacks a name of
    the vocabulary, [validate_pose_schema] raises a [BlazePoseSequenceError]
    whose message names the first absent joint, in the order of the
    vocabulary. *)
Theorem validate_pose_schema_names_missing_joint (names : list string)
    (frame_data d : gmap string pyval) (pre : list string) (pos : string)
    (post : list string) :
  (∀ key, key ∈ required_keys → is_Some (frame_data !! key)) →
  frame_data !! "joint_positions" = Some (PyDict d) →
  d ≠ ∅ →
  names = pre ++ pos :: post →
  (∀ p, p ∈ pre → is_Some (d !! p)) →
  d !! pos = None →
  validate_pose_schema names frame_data
  = inl (BlazePoseSequenceError
           ("Validation error - " +:+ pos +:+
            " is missing from joint position data")).
Proof.
  intros Hkeys Hjp Hne -> Hpre Hpos. unfold validate_pose_schema.
  rewrite (proj2 (validate_required_keys_inr _ _) Hkeys), bind_inr.
  rewrite (dict_getitem_Some _ _ _ Hjp), bind_inr.
  rewrite (proj2 (truthy_dict _) Hne). cbn [negb].
  by rewrite (validate_positions_first_missing _ _ _ _ Hpre Hpos).
Qed.

Lemma sample_no_hip_lookup joint :
  joint ∈ frame_joint_position_names → joint ≠ "left_hip" →
  is_Some (sample_no_hip_joint_positions !! joint).
Proof.
  intros Hjoint Hne. unfold sample_no_hip_joint_positions.
  rewrite lookup_delete_ne by done.
  rewrite sample_joint_positions_lookup by done. eauto.
Qed.

Lemma validate_pose_schema_names_missing_joint_witness :
  validate_pose_schema sequence_joint_positions sample_no_hip
  = inl (BlazePoseSequenceError
           ("Validation error - " +:+ "left_hip" +:+
            " is missing from joint position data")).
Proof.
  apply (validate_pose_schema_names_missing_joint sequence_joint_positions
           sample_no_hip sample_no_hip_joint_positions
           (take 23 sequence_joint_positions) "left_hip"
           (drop 24 sequence_joint_positions)).
  - apply sample_frame_data_keys.
  - reflexivity.
  - intros Hempty.
    assert (is_Some (sample_no_hip_joint_positions !! "nose")) as Hnose
      by (apply sample_no_hip_lookup; [in_literal|discriminate]).
    rewrite Hempty, lookup_empty in Hnose. by destruct Hnose.
  - reflexivity.
  - intros p Hp. apply sample_no_hip_lookup.
    + apply list_elem_of_In in Hp. apply list_elem_of_In. simpl in *. tauto.
    + intros ->. apply list_elem_of_In in Hp. simpl in Hp.
      repeat (destruct Hp as [Hp|Hp]; [discriminate Hp|]). exact Hp.
  - apply lookup_delete_eq.
Defined.

(** X10: a sequence is constructed exactly when every entry passes
    [validate_pose_schema]; the object then holds the entries as they were
    given, the vocabulary, and no frame. *)
Theorem BlazePoseSequence_init_returns_iff
    (sequence : list (gmap string pyval)) (self : BlazePoseSequence.t) :
  BlazePoseSequence_init sequence = inr self
  ↔ Forall (λ frame,
              validate_pose_schema sequence_joint_positions frame = inr true)
           sequence ∧
    self = BlazePoseSequence.mk sequence_joint_positions sequence [].
Proof.
  unfold BlazePoseSequence_init. split.
  - destruct (validate_sequence _ _) as [e|[]] eqn:Hvalid; [done|].
    apply validate_sequence_inr in Hvalid. rewrite bind_inr.
    by intros [= <-].
  - intros [Hvalid ->]. apply validate_sequence_inr in Hvalid.
    by rewrite Hvalid.
Qed.

(** ** Frame validation, continued *)

Lemma validate_joint_names_complete_prefix pre rest (d : gmap string pyval) :
  (∀ p, p ∈ pre →
     ∃ r, d !! p = Some (PyDict r) ∧
          ∀ key, key ∈ required_joint_keys → is_Some (r !! key)) →
  validate_joint_names (pre ++ rest) (PyDict d)
  = validate_joint_names rest (PyDict d).
Proof.
  induction pre as [|p pre IH]; intros Hpre; [done|].
  cbn [app validate_joint_names py_contains]. rewrite bind_ret.
  destruct (Hpre p) as (r & Hr & Hkeys); [apply list_elem_of_here|].
  assert (dict_contains p d = true) as ->
    by (apply dict_contains_true; eauto).
  destruct (validate_joint_keys_dict p d r required_joint_keys Hr)
    as [[_ ->]|(key & Hkey & Hnone & _)].
  - rewrite bind_inr. apply IH. intros p' Hp'. apply Hpre.
    by apply list_elem_of_further.
  - destruct (Hkeys key Hkey) as [v Hv]. congruence.
Qed.

(** X11: built directly from a record whose landmarks are a non-empty
    dictionary that lacks a name of the vocabulary, the joints before it
    being complete, a frame is refused with a [BlazePoseFrameError] whose
    message names the absent joint. *)
Theorem BlazePoseFrame_init_names_missing_joint
    (get_plumbline_vector : BlazePoseFrame.t → result (list point * list point))
    (frame_data d : gmap string pyval) (pre : list string) (joint : string)
    (post : list string) :
  (∀ key, key ∈ required_keys → is_Some (frame_data !! key)) →
  frame_data !! "joint_positions" = Some (PyDict d) →
  d ≠ ∅ →
  frame_joint_position_names = pre ++ joint :: post →
  (∀ p, p ∈ pre →
     ∃ r, d !! p = Some (PyDict r) ∧
          ∀ key, key ∈ required_joint_keys → is_Some (r !! key)) →
  d !! joint = None →
  BlazePoseFrame_init get_plumbline_vector frame_data
  = inl (BlazePoseFrameError (joint +:+ " missing from joint positions dict")).
Proof.
  intros Hkeys Hjp Hne Hsplit Hpre Hjoint.
  destruct (top_level_lookups _ Hkeys)
    as (v1 & v2 & v3 & v4 & v5 & H1 & H2 & H3 & H4 & H5).
  rewrite (BlazePoseFrame_init_read _ _ _ _ _ _ _ H1 H2 H3 H4 Hjp).
  rewrite (proj2 (truthy_dict _) Hne). unfold validate_joint_position_data.
  cbn [frame_before_joints BlazePoseFrame.joint_position_names].
  rewrite Hsplit, (validate_joint_names_complete_prefix _ _ _ Hpre).
  cbn [validate_joint_names py_contains]. rewrite bind_ret.
  unfold dict_contains. by rewrite Hjoint.
Qed.

Lemma BlazePoseFrame_init_names_missing_joint_witness :
  BlazePoseFrame_init (plumbline_returning ([], [])) sample_no_hip
  = inl (BlazePoseFrameError
           ("left_hip" +:+ " missing from joint positions dict")).
Proof.
  apply (BlazePoseFrame_init_names_missing_joint
           (plumbline_returning ([], [])) sample_no_hip
           sample_no_hip_joint_positions
           (take 23 frame_joint_position_names) "left_hip"
           (drop 24 frame_joint_position_names)).
  - apply sample_frame_data_keys.
  - reflexivity.
  - intros Hempty.
    assert (is_Some (sample_no_hip_joint_positions !! "nose")) as Hnose
      by (apply sample_no_hip_lookup; [in_literal|discriminate]).
    rewrite Hempty, lookup_empty in Hnose. by destruct Hnose.
  - reflexivity.
  - intros p Hp. exists sample_coordinates. split.
    + unfold sample_no_hip_joint_positions.
      rewrite lookup_delete_ne, sample_joint_positions_lookup; [done| |].
      * apply list_elem_of_In in Hp. apply list_elem_of_In. simpl in *. tauto.
      * intros <-. apply list_elem_of_In in Hp. simpl in Hp.
        repeat (destruct Hp as [Hp|Hp]; [discriminate Hp|]). exact Hp.
    + intros key Hkey. apply dict_contains_true.
      apply list_elem_of_In in Hkey. simpl in Hkey.
      destruct Hkey as [<-|[<-|[<-|[<-|[<-|[<-|[]]]]]]]; reflexivity.
  - apply lookup_delete_eq.
Defined.

(** ** Frame generation, continued *)

Section GenerationAgain.

Variable get_plumbline_vector :
  BlazePoseFrame.t → result (list point * list point).

Lemma generate_loop_inr sequence_data :
  ∀ frames frames',
    generate_loop get_plumbline_vector frames sequence_data
    = (frames', inr tt) →
    ∃ new,
      frames' = frames ++ new ∧
      Forall2 (λ frame_data bpf,
                 BlazePoseFrame_init get_plumbline_vector frame_data = inr bpf)
              sequence_data new.
Proof.
  induction sequence_data as [|frame_data sequence_data IH];
    intros frames frames'; cbn [generate_loop].
  - intros [= <-]. exists []. split; [by rewrite app_nil_r|constructor].
  - destruct (BlazePoseFrame_init _ frame_data) as [e|bpf] eqn:Hbpf; [done|].
    intros Hloop. destruct (IH _ _ Hloop) as (new & -> & Hnew).
    exists (bpf :: new). split; [by rewrite <- app_assoc|by constructor].
Qed.

Lemma generate_loop_built sequence_data new :
  Forall2 (λ frame_data bpf,
             BlazePoseFrame_init get_plumbline_vector frame_data = inr bpf)
          sequence_data new →
  ∀ frames,
    generate_loop get_plumbline_vector frames sequence_data
    = (frames ++ new, inr tt).
Proof.
  induction 1 as [|frame_data bpf sequence_data new Hbpf _ IH]; intros frames;
    cbn [generate_loop].
  - by rewrite app_nil_r.
  - by rewrite Hbpf, IH, <- app_assoc.
Qed.

(** X12: the generation step does not start from an empty list. A second
    call on a sequence whose first call returned appends the same frames
    once more: [frames] then holds each entry's frame twice. *)
Theorem generation_twice_appends_again (self self' : BlazePoseSequence.t) :
  generate_blaze_pose_frames_from_sequence get_plumbline_vector self
  = (self', inr tt) →
  ∃ new,
    length new = length (BlazePoseSequence.sequence_data self) ∧
    BlazePoseSequence.frames self' = BlazePoseSequence.frames self ++ new ∧
    BlazePoseSequence.sequence_data self'
    = BlazePoseSequence.sequence_data self ∧
    generate_blaze_pose_frames_from_sequence get_plumbline_vector self'
    = (BlazePoseSequence.mk (BlazePoseSequence.joint_positions self)
         (BlazePoseSequence.sequence_data self)
         (BlazePoseSequence.frames self ++ new ++ new),
       inr tt).
Proof.
  unfold generate_blaze_pose_frames_from_sequence.
  destruct (generate_loop _ (BlazePoseSequence.frames self) _)
    as [frames' outcome] eqn:Hloop.
  intros [= <- ->].
  apply generate_loop_inr in Hloop as (new & -> & Hnew).
  exists new. cbn. split_and!; [|done..|].
  - symmetry. by eapply Forall2_length.
  - by rewrite (generate_loop_built _ _ Hnew), <- app_assoc.
Qed.

(** X13: when an entry cannot be built, the generation step raises the
    error of that entry and keeps in [frames] the frames of the entries
    before it; the entries after it are not looked at. *)
Theorem generation_stops_at_first_failure (self : BlazePoseSequence.t)
    (pre : list (gmap string pyval)) (bad : gmap string pyval)
    (post : list (gmap string pyval)) (new : list BlazePoseFrame.t)
    (e : exn) :
  BlazePoseSequence.sequence_data self = pre ++ bad :: post →
  Forall2 (λ frame_data bpf,
             BlazePoseFrame_init get_plumbline_vector frame_data = inr bpf)
          pre new →
  BlazePoseFrame_init get_plumbline_vector bad = inl e →
  generate_blaze_pose_frames_from_sequence get_plumbline_vector self
  = (BlazePoseSequence.mk (BlazePoseSequence.joint_positions self)
       (BlazePoseSequence.sequence_data self)
       (BlazePoseSequence.frames self ++ new),
     inl e).
Proof.
  intros Hsplit Hpre Hbad. unfold generate_blaze_pose_frames_from_sequence.
  rewrite Hsplit at 1.
  by rewrite (generate_loop_raises _ _ _ _ _ _ Hpre Hbad).
Qed.

End GenerationAgain.

Lemma generation_twice_appends_again_witness :
  ∃ self' new,
    generate_blaze_pose_frames_from_sequence (plumbline_returning ([], []))
      (BlazePoseSequence.mk sequence_joint_positions
         sample_sequence_complete [])
    = (self', inr tt) ∧
    length new = length sample_sequence_complete ∧
    BlazePoseSequence.frames self' = [] ++ new ∧
    BlazePoseSequence.sequence_data self' = sample_sequence_complete ∧
    generate_blaze_pose_frames_from_sequence (plumbline_returning ([], []))
      self'
    = (BlazePoseSequence.mk sequence_joint_positions
         sample_sequence_complete ([] ++ new ++ new),
       inr tt).
Proof.
  assert (Forall (λ frame_data,
            ∃ bpf, BlazePoseFrame_init (plumbline_returning ([], []))
                     frame_data = inr bpf) sample_sequence_complete)
    as Hbuilt.
  { repeat constructor;
      (apply BlazePoseFrame_init_returns;
       [reflexivity|reflexivity|intros frame; by exists ([], [])]). }
  destruct (generate_loop_returns (plumbline_returning ([], []))
              sample_sequence_complete Hbuilt []) as (frames & Hloop & _).
  assert (generate_blaze_pose_frames_from_sequence
            (plumbline_returning ([], []))
            (BlazePoseSequence.mk sequence_joint_positions
               sample_sequence_complete [])
          = (BlazePoseSequence.mk sequence_joint_positions
               sample_sequence_complete ([] ++ frames), inr tt)) as Hfirst.
  { unfold generate_blaze_pose_frames_from_sequence.
    cbn [BlazePoseSequence.frames BlazePoseSequence.sequence_data
         BlazePoseSequence.joint_positions].
    by rewrite Hloop. }
  destruct (generation_twice_appends_again (plumbline_returning ([], []))
              _ _ Hfirst) as (new & Hlen & Hframes & Hdata & Hsecond).
  eexists _, new. split; [exact Hfirst|].
  exact (conj Hlen (conj Hframes (conj Hdata Hsecond))).
Defined.

Lemma generation_stops_at_first_failure_witness :
  generate_blaze_pose_frames_from_sequence (plumbline_returning ([], []))
    (BlazePoseSequence.mk sequence_joint_positions sample_sequence_knee [])
  = (BlazePoseSequence.mk sequence_joint_positions sample_sequence_knee
       ([] ++ [frame_before_joints (PyInt 2) (PyDict ∅)
                 sample_image_dimensions (PyInt 1677107027968938000)
                 (PyStr "mediapipe")]),
     inl (BlazePoseFrameError
            "z_normalized missing from left_knee position data")).
Proof.
  apply (generation_stops_at_first_failure (plumbline_returning ([], []))
           (BlazePoseSequence.mk sequence_joint_positions
              sample_sequence_knee [])
           [sample_undetected] sample_knee []).
  - reflexivity.
  - repeat constructor.
  - reflexivity.
Defined.

(** ** The client: serializing a detection *)

Lemma client_bind_inr {A B} (a : A) (k : A → client_result B) :
  (inr a ≫= k) = k a.
Proof. reflexivity. Qed.

Lemma client_bind_inl {A B} (e : client_exn) (k : A → client_result B) :
  (inl e ≫= k) = inl e.
Proof. reflexivity. Qed.

Lemma client_bind_ret {A B} (a : A) (k : A → client_result B) :
  (mret a ≫= k) = k a.
Proof. reflexivity. Qed.

Lemma client_joints_NoDup : NoDup client_joints.
Proof. apply (bool_decide_eq_true_1 _). vm_compute. reflexivity. Qed.

Lemma client_joints_agree : client_joints = frame_joint_position_names.
Proof. reflexivity. Qed.

Lemma landmark_attr_Some pose_landmarks i landmark attr :
  pose_landmarks !! i = Some landmark →
  landmark_attr pose_landmarks i attr = inr (attr landmark).
Proof. intros H. unfold landmark_attr. by rewrite H. Qed.

Lemma float_mul_int_inr f n m :
  float_of_int n = inr m → float_mul_int f n = inr (PrimFloat.mul f m).
Proof. intros H. unfold float_mul_int. by rewrite H. Qed.

Lemma landmark_record_complete landmark fh fw :
  record_complete (PyDict (landmark_record landmark fh fw)) = true.
Proof. reflexivity. Qed.

(** One turn of the loop, when the landmark is there and the dimensions
    convert. *)
Lemma serialize_loop_cons pose_landmarks h w fh fw i joint joints acc
    landmark :
  float_of_int h = inr fh → float_of_int w = inr fw →
  pose_landmarks !! i = Some landmark →
  serialize_loop pose_landmarks h w i (joint :: joints) acc
  = serialize_loop pose_landmarks h w (S i) joints
      (<[joint := PyDict (landmark_record landmark fh fw)]> acc).
Proof.
  intros Hh Hw Hi. cbn [serialize_loop].
  rewrite !(landmark_attr_Some _ _ _ _ Hi), !client_bind_inr.
  rewrite (float_mul_int_inr _ _ _ Hw), !client_bind_inr.
  rewrite (float_mul_int_inr _ _ _ Hh), !client_bind_inr.
  rewrite (float_mul_int_inr _ _ _ Hw), !client_bind_inr.
  reflexivity.
Qed.

(** With a landmark for every joint left, the loop returns; the names it
    did not go through are as they were, and each name it went through
    maps to the record of a landmark at the index of that name. *)
Lemma serialize_loop_returns pose_landmarks h w fh fw :
  float_of_int h = inr fh → float_of_int w = inr fw →
  ∀ joints i acc,
    (i + length joints ≤ length pose_landmarks)%nat →
    ∃ d,
      serialize_loop pose_landmarks h w i joints acc = inr d ∧
      (∀ joint, joint ∉ joints → d !! joint = acc !! joint) ∧
      (∀ joint, joint ∈ joints →
         ∃ k landmark,
           joints !! k = Some joint ∧
           pose_landmarks !! (i + k) = Some landmark ∧
           d !! joint = Some (PyDict (landmark_record landmark fh fw))).
Proof.
  intros Hh Hw. induction joints as [|joint joints IH]; intros i acc Hlen.
  - exists acc. split_and!; [done..|]. intros joint Hjoint.
    by apply elem_of_nil in Hjoint.
  - cbn [length] in Hlen.
    destruct (lookup_lt_is_Some_2 pose_landmarks i) as [landmark Hi]; [lia|].
    rewrite (serialize_loop_cons _ _ _ _ _ _ _ _ _ _ Hh Hw Hi).
    destruct (IH (S i) (<[joint := PyDict (landmark_record landmark fh fw)]> acc))
      as (d & -> & Hout & Hin); [lia|].
    exists d. split_and!; [done| |].
    + intros j Hj. apply not_elem_of_cons in Hj as [Hne Hj].
      by rewrite (Hout _ Hj), lookup_insert_ne.
    + intros j Hj. destruct (decide (j ∈ joints)) as [Hjs|Hjs].
      * destruct (Hin _ Hjs) as (k & lm & Hk & Hlm & Hd).
        exists (S k), lm. split_and!; [done| |done].
        by rewrite Nat.add_succ_r.
      * apply elem_of_cons in Hj as [->|Hj]; [|done].
        exists 0, landmark. split_and!; [done| |].
        -- by rewrite Nat.add_0_r.
        -- by rewrite (Hout _ Hjs), lookup_insert_eq.
Qed.

(** Whenever the loop returns, each name it went through maps to a record
    with the six coordinate keys. *)
Lemma serialize_loop_inr pose_landmarks h w :
  ∀ joints i acc d,
    serialize_loop pose_landmarks h w i joints acc = inr d →
    (∀ joint, joint ∉ joints → d !! joint = acc !! joint) ∧
    (∀ joint, joint ∈ joints →
       ∃ r, d !! joint = Some (PyDict r) ∧ record_complete (PyDict r) = true).
Proof.
  induction joints as [|joint joints IH]; intros i acc d.
  - cbn [serialize_loop]. intros [= <-]. split; [done|].
    intros joint Hjoint. by apply elem_of_nil in Hjoint.
  - cbn [serialize_loop]. unfold landmark_attr.
    destruct (pose_landmarks !! i) as [landmark|]; [|done].
    rewrite !client_bind_ret.
    destruct (float_mul_int _ w) as [e|xn]; [done|].
    rewrite client_bind_inr, client_bind_ret.
    destruct (float_mul_int _ h) as [e|yn]; [done|].
    rewrite client_bind_inr, client_bind_ret.
    destruct (float_mul_int _ w) as [e|zn]; [done|].
    rewrite client_bind_inr. cbv zeta. intros Hloop. destruct (IH _ _ _ Hloop) as [Hout Hin]. split.
    + intros j Hj. apply not_elem_of_cons in Hj as [Hne Hj].
      by rewrite (Hout _ Hj), lookup_insert_ne.
    + intros j Hj. destruct (decide (j ∈ joints)) as [Hjs|Hjs]; [by apply Hin|].
      apply elem_of_cons in Hj as [->|Hj]; [|done].
      eexists. rewrite (Hout _ Hjs), lookup_insert_eq. split; reflexivity.
Qed.

Lemma serialize_loop_short pose_landmarks h w fh fw :
  float_of_int h = inr fh → float_of_int w = inr fw →
  ∀ joints i acc,
    (i ≤ length pose_landmarks)%nat →
    (length pose_landmarks < i + length joints)%nat →
    serialize_loop pose_landmarks h w i joints acc
    = inl (IndexError "list index out of range").
Proof.
  intros Hh Hw. induction joints as [|joint joints IH]; intros i acc Hi Hlen;
    cbn [length] in Hlen; [lia|].
  destruct (decide (i = length pose_landmarks)) as [->|Hne].
  - cbn [serialize_loop]. unfold landmark_attr.
    by rewrite (lookup_ge_None_2 pose_landmarks) by lia.
  - destruct (lookup_lt_is_Some_2 pose_landmarks i) as [landmark Hlm]; [lia|].
    rewrite (serialize_loop_cons _ _ _ _ _ _ _ _ _ _ Hh Hw Hlm).
    apply IH; lia.
Qed.

(** X14: with a landmark for each of the 33 joints (any landmarks beyond
    are ignored) and image dimensions that convert to floats,
    [serialize_pose_landmarks] returns a dictionary whose keys are exactly
    the vocabulary; the joint of index [k] maps to the record of the
    landmark of index [k]: its [x], [y], [z], and these multiplied by the
    width, the height and the width of the image. *)
Theorem serialize_pose_landmarks_returns (self : MediaPipeClient.t)
    (pose_landmarks : list Landmark.t) (h w c : Z) (fh fw : float) :
  MediaPipeClient.joints self = client_joints →
  MediaPipeClient.image_dimensions self = Some [h; w; c] →
  float_of_int h = inr fh →
  float_of_int w = inr fw →
  (length client_joints ≤ length pose_landmarks)%nat →
  ∃ d,
    serialize_pose_landmarks self pose_landmarks = inr d ∧
    (∀ joint, is_Some (d !! joint) ↔ joint ∈ client_joints) ∧
    ∀ k joint landmark,
      client_joints !! k = Some joint →
      pose_landmarks !! k = Some landmark →
      d !! joint = Some (PyDict (landmark_record landmark fh fw)).
Proof.
  intros Hjoints Hshape Hh Hw Hlen. unfold serialize_pose_landmarks.
  destruct pose_landmarks as [|landmark0 pose_landmarks];
    [cbn in Hlen; lia|].
  rewrite Hshape, Hjoints, client_bind_ret. cbn [unpack_shape].
  rewrite client_bind_ret.
  destruct (serialize_loop_returns (landmark0 :: pose_landmarks) h w fh fw
              Hh Hw client_joints 0 ∅) as (d & -> & Hout & Hin); [done|].
  exists d. split_and!; [done| |].
  - intros joint. split.
    + intros Hsome. destruct (decide (joint ∈ client_joints)) as [|Hn]; [done|].
      rewrite (Hout _ Hn), lookup_empty in Hsome. by destruct Hsome.
    + intros Hjoint. destruct (Hin _ Hjoint) as (k & lm & _ & _ & ->). eauto.
  - intros k joint landmark Hk Hlm.
    destruct (Hin joint) as (k' & lm & Hk' & Hlm' & ->);
      [by eapply list_elem_of_lookup_2|].
    assert (k' = k) as -> by (eapply NoDup_lookup;
                              eauto using client_joints_NoDup).
    cbn [Nat.add] in Hlm'. congruence.
Qed.

(** X15: a detection that is not empty and has fewer landmarks than the
    client has joints makes [serialize_pose_landmarks] raise [IndexError];
    an empty detection is serialized to the empty dictionary, whatever the
    state of the client. *)
Theorem serialize_pose_landmarks_short (self : MediaPipeClient.t)
    (pose_landmarks : list Landmark.t) (h w c : Z) (fh fw : float) :
  MediaPipeClient.image_dimensions self = Some [h; w; c] →
  float_of_int h = inr fh →
  float_of_int w = inr fw →
  (length pose_landmarks < length (MediaPipeClient.joints self))%nat →
  serialize_pose_landmarks self pose_landmarks
  = match pose_landmarks with
    | [] => inr ∅
    | _ :: _ => inl (IndexError "list index out of range")
    end.
Proof.
  intros Hshape Hh Hw Hlen. unfold serialize_pose_landmarks.
  destruct pose_landmarks as [|landmark0 pose_landmarks]; [done|].
  rewrite Hshape, client_bind_ret. cbn [unpack_shape].
  rewrite client_bind_ret.
  apply (serialize_loop_short _ _ _ _ _ Hh Hw); [lia|done].
Qed.

Lemma serialize_pose_landmarks_returns_witness :
  ∃ d,
    serialize_pose_landmarks sample_client sample_detection = inr d ∧
    (∀ joint, is_Some (d !! joint) ↔ joint ∈ client_joints) ∧
    ∀ k joint landmark,
      client_joints !! k = Some joint →
      sample_detection !! k = Some landmark →
      d !! joint
      = Some (PyDict (landmark_record landmark 1080%float 1920%float)).
Proof.
  apply (serialize_pose_landmarks_returns sample_client sample_detection
           1080 1920 3 1080%float 1920%float).
  - reflexivity.
  - reflexivity.
  - reflexivity.
  - reflexivity.
  - exact (le_n 33).
Defined.

Lemma serialize_pose_landmarks_short_witness :
  serialize_pose_landmarks sample_client (replicate 5 sample_landmark)
  = inl (IndexError "list index out of range").
Proof.
  apply (serialize_pose_landmarks_short sample_client
           (replicate 5 sample_landmark) 1080 1920 3 1080%float 1920%float).
  - reflexivity.
  - reflexivity.
  - reflexivity.
  - cbn. lia.
Defined.

(** ** The client: processing a video *)

Lemma unpack_shape_inr shape h w :
  unpack_shape shape = inr (h, w) → ∃ c, shape = [h; w; c].
Proof.
  destruct shape as [|h' [|w' [|c [|? ?]]]]; try done.
  cbn. intros [= <- <-]. by exists c.
Qed.

Lemma new_frame_data_lookups id n h w :
  new_frame_data id n h w !! "sequence_id" = Some (PyInt id) ∧
  new_frame_data id n h w !! "sequence_source" = Some (PyStr "mediapipe") ∧
  new_frame_data id n h w !! "frame_number" = Some (PyInt n) ∧
  new_frame_data id n h w !! "image_dimensions"
  = Some (PyDict (list_to_map [("height", PyInt h); ("width", PyInt w)])) ∧
  new_frame_data id n h w !! "joint_positions" = Some (PyDict ∅).
Proof. by split_and!. Qed.

(** The entry of a frame, with the landmarks [d] in place of the empty
    dictionary (line 606). *)
Lemma entry_lookups id n h w (d : gmap string pyval) :
  let frame_data := <["joint_positions" := PyDict d]> (new_frame_data id n h w) in
  frame_data !! "sequence_id" = Some (PyInt id) ∧
  frame_data !! "sequence_source" = Some (PyStr "mediapipe") ∧
  frame_data !! "frame_number" = Some (PyInt n) ∧
  frame_data !! "image_dimensions"
  = Some (PyDict (list_to_map [("height", PyInt h); ("width", PyInt w)])) ∧
  frame_data !! "joint_positions" = Some (PyDict d).
Proof.
  cbv zeta. rewrite lookup_insert_eq, !lookup_insert_ne by done.
  by split_and!.
Qed.

(** An entry whose landmarks are empty or name every joint with a complete
    record passes both validations. *)
Lemma entry_valid id n h w (d : gmap string pyval) :
  (d = ∅ ∨ ∀ joint, joint ∈ client_joints →
             ∃ r, d !! joint = Some (PyDict r) ∧
                  record_complete (PyDict r) = true) →
  let frame_data := <["joint_positions" := PyDict d]> (new_frame_data id n h w) in
  validate_pose_schema sequence_joint_positions frame_data = inr true ∧
  entry_complete frame_data = true.
Proof.
  intros Hd frame_data.
  destruct (entry_lookups id n h w d) as (H1 & H2 & H3 & H4 & H5).
  fold frame_data in H1, H2, H3, H4, H5.
  assert (validate_required_keys required_keys frame_data = inr tt) as Hkeys.
  { apply validate_required_keys_inr. intros key Hkey.
    apply list_elem_of_In in Hkey. simpl in Hkey.
    destruct Hkey as [<-|[<-|[<-|[<-|[<-|[]]]]]]; eauto. }
  unfold validate_pose_schema, entry_complete.
  rewrite Hkeys, bind_inr, (dict_getitem_Some _ _ _ H5), bind_inr, H5.
  destruct (truthy (PyDict d)) eqn:Htruthy; cbn [negb orb]; [|done].
  destruct Hd as [->|Hd]; [done|]. split.
  - rewrite validate_positions_dict; [done|]. intros pos Hpos.
    destruct (Hd pos Hpos) as (r & -> & _). eauto.
  - cbn [joints_complete]. apply forallb_forall. intros joint Hjoint.
    apply list_elem_of_In in Hjoint.
    by destruct (Hd joint Hjoint) as (r & -> & Hr).
Qed.

Lemma new_frame_data_valid id n h w :
  validate_pose_schema sequence_joint_positions (new_frame_data id n h w)
  = inr true ∧
  entry_complete (new_frame_data id n h w) = true.
Proof. by split. Qed.

(** What [serialize_pose_landmarks] returns is empty or names every joint
    of the client with a complete record. *)
Lemma serialize_pose_landmarks_inr self pose_landmarks d :
  serialize_pose_landmarks self pose_landmarks = inr d →
  d = ∅ ∨ ∀ joint, joint ∈ MediaPipeClient.joints self →
            ∃ r, d !! joint = Some (PyDict r) ∧
                 record_complete (PyDict r) = true.
Proof.
  unfold serialize_pose_landmarks.
  destruct pose_landmarks as [|landmark pose_landmarks];
    [intros [= <-]; by left|].
  destruct (MediaPipeClient.image_dimensions self) as [shape|]; [|done].
  rewrite client_bind_ret.
  destruct (unpack_shape shape) as [e|[h w]]; [done|].
  rewrite client_bind_inr. intros Hloop. right.
  by apply serialize_loop_inr in Hloop as [_ Hin].
Qed.

(** The entries the loop appends: numbered from the frame count on, with
    the client's identifier and the dimensions of their image, and valid. *)
Lemma process_frames_entries limit frames :
  ∀ self self' outcome,
    process_frames self limit frames = (self', outcome) →
    MediaPipeClient.id self' = MediaPipeClient.id self ∧
    MediaPipeClient.joints self' = MediaPipeClient.joints self ∧
    ∃ new,
      MediaPipeClient.frame_data_list self'
      = MediaPipeClient.frame_data_list self ++ new ∧
      ∀ k frame_data, new !! k = Some frame_data →
        frame_data !! "frame_number"
        = Some (PyInt (MediaPipeClient.frame_count self + 1 + Z.of_nat k)) ∧
        frame_data !! "sequence_id" = Some (PyInt (MediaPipeClient.id self)) ∧
        frame_data !! "sequence_source" = Some (PyStr "mediapipe") ∧
        (∃ h w c detection,
           frames !! k = Some ([h; w; c], detection) ∧
           frame_data !! "image_dimensions"
           = Some (PyDict (list_to_map
                             [("height", PyInt h); ("width", PyInt w)]))) ∧
        (MediaPipeClient.joints self = client_joints →
         validate_pose_schema sequence_joint_positions frame_data = inr true ∧
         entry_complete frame_data = true).
Proof.
  destruct limit as [n|];
    [|intros self self' outcome; destruct frames; intros [= <- <-];
      (split_and!; [done..|]; exists []; split; [by rewrite app_nil_r|done])].
  induction frames as [|[shape detection] frames IH];
    intros self self' outcome; cbn [process_frames].
  - destruct (n <=? _)%Z; intros [= <- <-];
      (split_and!; [done..|]; exists []; split; [by rewrite app_nil_r|done]).
  - destruct (n <=? _)%Z;
      [intros [= <- <-]; split_and!; [done..|]; exists [];
       split; [by rewrite app_nil_r|done]|].
    cbv zeta. cbn [MediaPipeClient.frame_count MediaPipeClient.frame_data_list
      MediaPipeClient.id MediaPipeClient.joints MediaPipeClient.results_raw].
    destruct (unpack_shape shape) as [e|[h w]] eqn:Hshape;
      [intros [= <- <-]; split_and!; [done..|]; exists [];
       split; [by rewrite app_nil_r|done]|].
    apply unpack_shape_inr in Hshape as [c ->].
    assert (∀ d,
      (d = ∅ ∨ ∀ joint, joint ∈ MediaPipeClient.joints self →
                 ∃ r, d !! joint = Some (PyDict r) ∧
                      record_complete (PyDict r) = true) →
      ∀ self1,
        MediaPipeClient.frame_count self1
        = (MediaPipeClient.frame_count self + 1)%Z →
        MediaPipeClient.frame_data_list self1
        = MediaPipeClient.frame_data_list self ++
          [<["joint_positions" := PyDict d]>
             (new_frame_data (MediaPipeClient.id self)
                (MediaPipeClient.frame_count self + 1) h w)] →
        MediaPipeClient.id self1 = MediaPipeClient.id self →
        MediaPipeClient.joints self1 = MediaPipeClient.joints self →
        process_frames self1 (Some n) frames = (self', outcome) →
        MediaPipeClient.id self' = MediaPipeClient.id self ∧
        MediaPipeClient.joints self' = MediaPipeClient.joints self ∧
        ∃ new,
          MediaPipeClient.frame_data_list self'
          = MediaPipeClient.frame_data_list self ++ new ∧
          ∀ k frame_data, new !! k = Some frame_data →
            frame_data !! "frame_number"
            = Some (PyInt (MediaPipeClient.frame_count self + 1 + Z.of_nat k)) ∧
            frame_data !! "sequence_id"
            = Some (PyInt (MediaPipeClient.id self)) ∧
            frame_data !! "sequence_source" = Some (PyStr "mediapipe") ∧
            (∃ h0 w0 c0 detection0,
               (([h; w; c], detection) :: frames) !! k
               = Some ([h0; w0; c0], detection0) ∧
               frame_data !! "image_dimensions"
               = Some (PyDict (list_to_map
                                 [("height", PyInt h0); ("width", PyInt w0)]))) ∧
            (MediaPipeClient.joints self = client_joints →
             validate_pose_schema sequence_joint_positions frame_data
             = inr true ∧
             entry_complete frame_data = true)) as Hstep.
    { intros d Hd self1 Hcount Hlist Hid Hjoints Hrest.
      destruct (IH _ _ _ Hrest) as (Hid' & Hjoints' & new & Hnew & Hentries).
      split_and!; [congruence..|].
      eexists (_ :: new). split; [by rewrite Hnew, Hlist, <- app_assoc|].
      intros [|k] frame_data Hk.
      - injection Hk as <-.
        destruct (entry_lookups (MediaPipeClient.id self)
                    (MediaPipeClient.frame_count self + 1) h w d)
          as (H1 & H2 & H3 & H4 & H5).
        split_and!; [by rewrite Z.add_0_r|done|done| |].
        + by exists h, w, c, detection.
        + intros Hvocabulary. apply entry_valid.
          by rewrite <- Hvocabulary.
      - destruct (Hentries k frame_data Hk) as (H3 & H1 & H2 & H4 & H5).
        split_and!; [|congruence|done|done|].
        + rewrite H3, Hcount. do 2 f_equal. lia.
        + intros Hvocabulary. apply H5. congruence. }
    destruct detection as [pose_landmarks|].
    + destruct (serialize_pose_landmarks _ pose_landmarks) as [e|d] eqn:Hd;
        [intros [= <- <-]; split_and!; [done..|]; exists [];
         split; [by rewrite app_nil_r|done]|].
      apply serialize_pose_landmarks_inr in Hd.
      cbn [MediaPipeClient.joints] in Hd.
      intros Hrest. by refine (Hstep d Hd _ _ _ _ _ Hrest).
    + intros Hrest.
      by refine (Hstep ∅ (or_introl eq_refl) _ _ _ _ _ Hrest).
Qed.

(** X16: whatever the decoder and the pose model hand over, and however
    the processing ends, the entries [process_video] has appended to
    [frame_data_list] form a sequence that [BlazePoseSequence] accepts, and
    each of them has landmarks that are absent or complete: every frame of
    the sequence can be built as soon as [get_plumbline_vector] returns. *)
Theorem process_video_entries_form_a_sequence
    (get_plumbline_vector : BlazePoseFrame.t → result (list point * list point))
    (self : MediaPipeClient.t) (video : option (list video_frame))
    (limit : option Z) (self' : MediaPipeClient.t)
    (outcome : client_result unit) :
  MediaPipeClient.joints self = client_joints →
  process_video self video limit = (self', outcome) →
  ∃ new,
    MediaPipeClient.frame_data_list self'
    = MediaPipeClient.frame_data_list self ++ new ∧
    BlazePoseSequence_init new
    = inr (BlazePoseSequence.mk sequence_joint_positions new []) ∧
    Forall (λ frame_data, entry_complete frame_data = true) new ∧
    ((∀ frame, ∃ v, get_plumbline_vector frame = inr v) →
     ∃ frames,
       generate_blaze_pose_frames_from_sequence get_plumbline_vector
         (BlazePoseSequence.mk sequence_joint_positions new [])
       = (BlazePoseSequence.mk sequence_joint_positions new frames, inr tt) ∧
       length frames = length new).
Proof.
  intros Hjoints Hprocess.
  assert (∃ new,
    MediaPipeClient.frame_data_list self'
    = MediaPipeClient.frame_data_list self ++ new ∧
    Forall (λ frame_data,
              validate_pose_schema sequence_joint_positions frame_data
              = inr true ∧ entry_complete frame_data = true) new)
    as (new & Hnew & Hvalid).
  { unfold process_video in Hprocess. destruct video as [frames|].
    - apply process_frames_entries in Hprocess
        as (_ & _ & new & Hnew & Hentries).
      exists new. split; [done|]. apply Forall_lookup. intros k frame_data Hk.
      by apply (Hentries k frame_data Hk).
    - injection Hprocess as <- <-. exists []. split; [|constructor].
      by rewrite app_nil_r. }
  exists new. split_and!; [done| | |].
  - unfold BlazePoseSequence_init.
    rewrite (proj2 (validate_sequence_inr _ _)); [done|].
    eapply Forall_impl; [exact Hvalid|]. by intros frame_data [? ?].
  - eapply Forall_impl; [exact Hvalid|]. by intros frame_data [? ?].
  - intros Hplumb.
    destruct (generate_loop_returns get_plumbline_vector new) with (frames := @nil BlazePoseFrame.t)
      as (frames & Hloop & Hframes).
    { eapply Forall_impl; [exact Hvalid|]. intros frame_data [? ?].
      by apply BlazePoseFrame_init_returns. }
    exists frames. unfold generate_blaze_pose_frames_from_sequence.
    cbn [BlazePoseSequence.frames BlazePoseSequence.sequence_data
         BlazePoseSequence.joint_positions].
    rewrite Hloop. split; [done|]. symmetry. by eapply Forall2_length.
Qed.

(** X17: the entries [process_video] appends are numbered 1, 2, 3, ... in
    the order of the frames of the video, whatever [frame_data_list] held
    before (a second call numbers from 1 again); each carries the
    identifier of the client, the source "mediapipe" and the height and
    width of its image. *)
Theorem process_video_numbers_entries (self : MediaPipeClient.t)
    (video : option (list video_frame)) (limit : option Z)
    (self' : MediaPipeClient.t) (outcome : client_result unit) :
  process_video self video limit = (self', outcome) →
  ∃ new,
    MediaPipeClient.frame_data_list self'
    = MediaPipeClient.frame_data_list self ++ new ∧
    ∀ k frame_data, new !! k = Some frame_data →
      frame_data !! "frame_number" = Some (PyInt (Z.of_nat k + 1)) ∧
      frame_data !! "sequence_id" = Some (PyInt (MediaPipeClient.id self)) ∧
      frame_data !! "sequence_source" = Some (PyStr "mediapipe") ∧
      ∃ frames h w c detection,
        video = Some frames ∧
        frames !! k = Some ([h; w; c], detection) ∧
        frame_data !! "image_dimensions"
        = Some (PyDict (list_to_map
                          [("height", PyInt h); ("width", PyInt w)])).
Proof.
  unfold process_video. intros Hprocess. destruct video as [frames|].
  - apply process_frames_entries in Hprocess
      as (_ & _ & new & Hnew & Hentries).
    exists new. split; [done|]. intros k frame_data Hk.
    destruct (Hentries k frame_data Hk)
      as (H3 & H1 & H2 & (h & w & c & detection & Hframe & H4) & _).
    cbn in H3, H1. split_and!; [|done|done|].
    + rewrite H3. do 2 f_equal. lia.
    + by exists frames, h, w, c, detection.
  - injection Hprocess as <- <-. exists []. split; [by rewrite app_nil_r|].
    intros k frame_data Hk. by rewrite lookup_nil in Hk.
Qed.

Lemma process_video_entries_form_a_sequence_witness :
  ∃ self' outcome new,
    process_video (client_after_init 7) (Some sample_video) (Some 10%Z)
    = (self', outcome) ∧
    MediaPipeClient.frame_data_list self'
    = MediaPipeClient.frame_data_list (client_after_init 7) ++ new ∧
    BlazePoseSequence_init new
    = inr (BlazePoseSequence.mk sequence_joint_positions new []) ∧
    Forall (λ frame_data, entry_complete frame_data = true) new ∧
    ((∀ frame, ∃ v, plumbline_returning ([], []) frame = inr v) →
     ∃ frames,
       generate_blaze_pose_frames_from_sequence (plumbline_returning ([], []))
         (BlazePoseSequence.mk sequence_joint_positions new [])
       = (BlazePoseSequence.mk sequence_joint_positions new frames, inr tt) ∧
       length frames = length new).
Proof.
  destruct (process_video (client_after_init 7) (Some sample_video)
              (Some 10%Z)) as [self' outcome] eqn:Hprocess.
  destruct (process_video_entries_form_a_sequence
              (plumbline_returning ([], [])) (client_after_init 7)
              (Some sample_video) (Some 10%Z) self' outcome eq_refl Hprocess)
    as (new & Hnew & Hinit & Hcomplete & Hframes).
  exists self', outcome, new.
  exact (conj eq_refl (conj Hnew (conj Hinit (conj Hcomplete Hframes)))).
Defined.

Lemma process_video_numbers_entries_witness :
  ∃ self' outcome new,
    process_video (client_after_init 7) (Some sample_video) (Some 10%Z)
    = (self', outcome) ∧
    MediaPipeClient.frame_data_list self'
    = MediaPipeClient.frame_data_list (client_after_init 7) ++ new ∧
    ∀ k frame_data, new !! k = Some frame_data →
      frame_data !! "frame_number" = Some (PyInt (Z.of_nat k + 1)) ∧
      frame_data !! "sequence_id"
      = Some (PyInt (MediaPipeClient.id (client_after_init 7))) ∧
      frame_data !! "sequence_source" = Some (PyStr "mediapipe") ∧
      ∃ frames h w c detection,
        Some sample_video = Some frames ∧
        frames !! k = Some ([h; w; c], detection) ∧
        frame_data !! "image_dimensions"
        = Some (PyDict (list_to_map
                          [("height", PyInt h); ("width", PyInt w)])).
Proof.
  destruct (process_video (client_after_init 7) (Some sample_video)
              (Some 10%Z)) as [self' outcome] eqn:Hprocess.
  destruct (process_video_numbers_entries (client_after_init 7)
              (Some sample_video) (Some 10%Z) self' outcome Hprocess)
    as (new & Hnew & Hentries).
  exists self', outcome, new. exact (conj eq_refl (conj Hnew Hentries)).
Defined.

Lemma video_frame_ok_inv shape detection :
  video_frame_ok (shape, detection) = true →
  ∃ h w c, shape = [h; w; c] ∧
    (detection = None ∨ detection = Some [] ∨
     ∃ pose_landmarks fh fw,
       detection = Some pose_landmarks ∧
       (length client_joints ≤ length pose_landmarks)%nat ∧
       float_of_int h = inr fh ∧ float_of_int w = inr fw).
Proof.
  unfold video_frame_ok.
  destruct shape as [|h [|w [|c [|? ?]]]];
    try (destruct detection as [[|? ?]|]; discriminate).
  intros Hok. exists h, w, c. split; [done|].
  destruct detection as [[|landmark pose_landmarks]|]; [by right; left| |by left].
  right. right. apply andb_true_iff in Hok as [Hlen Hfloat].
  apply bool_decide_eq_true_1 in Hlen.
  destruct (float_of_int h) as [?|fh]; [done|].
  destruct (float_of_int w) as [?|fw]; [done|].
  by exists (landmark :: pose_landmarks), fh, fw.
Qed.

(** On frames the client can turn into entries, the loop ends without an
    error, at the limit or at the end of the video. *)
Lemma process_frames_ok n frames :
  forallb video_frame_ok frames = true →
  ∀ self,
    MediaPipeClient.joints self = client_joints →
    ∃ self',
      process_frames self (Some n) frames = (self', inr tt) ∧
      MediaPipeClient.frame_count self'
      = (if (n <=? MediaPipeClient.frame_count self)%Z
         then MediaPipeClient.frame_count self
         else Z.min n (MediaPipeClient.frame_count self
                       + Z.of_nat (length frames)))%Z ∧
      length (MediaPipeClient.frame_data_list self')
      = (length (MediaPipeClient.frame_data_list self)
         + Z.to_nat (MediaPipeClient.frame_count self'
                     - MediaPipeClient.frame_count self))%nat.
Proof.
  induction frames as [|[shape detection] frames IH]; intros Hok self Hjoints;
    cbn [process_frames].
  - destruct (n <=? _)%Z eqn:Hn; exists self.
    + split_and!; [done..|]. rewrite Z.sub_diag. cbn. lia.
    + apply Z.leb_gt in Hn. split_and!; [done|cbn; lia|].
      rewrite Z.sub_diag. cbn. lia.
  - destruct (n <=? _)%Z eqn:Hn.
    { exists self. split_and!; [done..|]. rewrite Z.sub_diag. cbn. lia. }
    apply Z.leb_gt in Hn. cbn [forallb] in Hok.
    apply andb_true_iff in Hok as [Hframe Hok].
    apply video_frame_ok_inv in Hframe as (h & w & c & -> & Hdetection).
    cbv zeta. cbn [unpack_shape MediaPipeClient.frame_count
      MediaPipeClient.frame_data_list MediaPipeClient.id MediaPipeClient.joints
      MediaPipeClient.results_raw].
    assert (∀ self1,
      MediaPipeClient.frame_count self1
      = (MediaPipeClient.frame_count self + 1)%Z →
      MediaPipeClient.joints self1 = client_joints →
      length (MediaPipeClient.frame_data_list self1)
      = S (length (MediaPipeClient.frame_data_list self)) →
      ∃ self',
        process_frames self1 (Some n) frames = (self', inr tt) ∧
        MediaPipeClient.frame_count self'
        = Z.min n (MediaPipeClient.frame_count self
                   + Z.of_nat (S (length frames)))%Z ∧
        length (MediaPipeClient.frame_data_list self')
        = (length (MediaPipeClient.frame_data_list self)
           + Z.to_nat (MediaPipeClient.frame_count self'
                       - MediaPipeClient.frame_count self))%nat) as Hstep.
    { intros self1 Hcount Hjoints1 Hlength.
      destruct (IH Hok self1 Hjoints1) as (self' & -> & Hcount' & Hlength').
      exists self'. split; [done|]. rewrite Hcount in Hcount', Hlength'.
      rewrite Hlength', Hlength, Hcount'.
      destruct (n <=? _)%Z eqn:Hn'; [apply Z.leb_le in Hn'|apply Z.leb_gt in Hn'];
        split; lia. }
    destruct Hdetection
      as [->|[->|(pose_landmarks & fh & fw & -> & Hlen & Hh & Hw)]].
    + apply Hstep; [done..|]. cbn. rewrite length_app. cbn. lia.
    + cbn [serialize_pose_landmarks]. apply Hstep; [done..|].
      cbn. rewrite length_app. cbn. lia.
    + unfold serialize_pose_landmarks.
      destruct pose_landmarks as [|landmark pose_landmarks];
        [cbn in Hlen; lia|].
      cbn [MediaPipeClient.image_dimensions MediaPipeClient.joints].
      rewrite client_bind_ret. cbn [unpack_shape]. rewrite client_bind_ret.
      rewrite Hjoints.
      destruct (serialize_loop_returns (landmark :: pose_landmarks) h w fh fw
                  Hh Hw client_joints 0 ∅) as (d & -> & _); [done|].
      apply Hstep; [done..|]. cbn. rewrite length_app. cbn. lia.
Qed.

(** X18: on a video whose frames the client can turn into entries, with a
    limit [n], [process_video] ends without an error after
    [min n (number of frames)] frames (none when [n] is negative), and has
    appended one entry for each of them. *)
Theorem process_video_counts_frames (self : MediaPipeClient.t)
    (frames : list video_frame) (n : Z) :
  MediaPipeClient.joints self = client_joints →
  forallb video_frame_ok frames = true →
  ∃ self',
    process_video self (Some frames) (Some n) = (self', inr tt) ∧
    MediaPipeClient.frame_count self'
    = Z.max 0 (Z.min n (Z.of_nat (length frames))) ∧
    length (MediaPipeClient.frame_data_list self')
    = (length (MediaPipeClient.frame_data_list self)
       + Z.to_nat (MediaPipeClient.frame_count self'))%nat.
Proof.
  intros Hjoints Hok. unfold process_video.
  destruct (process_frames_ok n frames Hok
              (MediaPipeClient.mk 0 (MediaPipeClient.frame_data_list self)
                 (MediaPipeClient.id self) (MediaPipeClient.joints self)
                 (MediaPipeClient.results_raw self)
                 (MediaPipeClient.image_dimensions self)) Hjoints)
    as (self' & Hprocess & Hcount & Hlength).
  exists self'. cbn [MediaPipeClient.frame_count
    MediaPipeClient.frame_data_list] in Hcount, Hlength.
  split_and!; [done| |].
  - rewrite Hcount.
    destruct (n <=? 0)%Z eqn:Hn; [apply Z.leb_le in Hn|apply Z.leb_gt in Hn];
      lia.
  - rewrite Hlength. by rewrite Z.sub_0_r.
Qed.

Lemma process_video_counts_frames_witness :
  ∃ self',
    process_video (client_after_init 7) (Some sample_video) (Some 2%Z)
    = (self', inr tt) ∧
    MediaPipeClient.frame_count self'
    = Z.max 0 (Z.min 2 (Z.of_nat (length sample_video))) ∧
    length (MediaPipeClient.frame_data_list self')
    = (length (MediaPipeClient.frame_data_list (client_after_init 7))
       + Z.to_nat (MediaPipeClient.frame_count self'))%nat.
Proof.
  apply (process_video_counts_frames (client_after_init 7) sample_video 2).
  - reflexivity.
  - reflexivity.
Defined.

